(** * GLUE experiment setup ([nn_pruning/examples/text_classification/glue_xp.py])

    A shallow embedding of the configuration check, the label-space
    derivation, the label table resolution, the batch preprocessing function,
    the metric fallback and the evaluation entry point of [glue_xp.py],
    followed by the properties proved about them.

    Python strings are embedded as byte strings; [str.lower] is embedded on
    the ASCII letters (bytes outside [A-Z] are left alone).  Python
    exceptions are values of [exn]; a method that mutates [self] is a
    function from the object to an outcome and the object it leaves behind. *)

From Stdlib Require Import ZArith QArith Qcanon Ascii String.
From stdpp Require Import base numbers option list sorting strings gmap pretty.

Local Open Scope Z_scope.
Local Open Scope stdpp_scope.

(** ** Python outcomes *)

Inductive exn :=
| ValueError (msg : string)
| AssertionError (msg : string)
| UnboundLocalError (var : string)
| AttributeError (attr : string)
| KeyError
| IndexError.

Inductive result (A : Type) :=
| Ok (a : A)
| Raise (e : exn).
Arguments Ok {A} a.
Arguments Raise {A} e.

Definition raises {A} (r : result A) : Prop :=
  match r with Ok _ => False | Raise _ => True end.

Module Res.
Definition bind {A B} (r : result A) (k : A → result B) : result B :=
  match r with Ok a => k a | Raise e => Raise e end.

Definition of_option {A} (e : exn) (o : option A) : result A :=
  match o with Some a => Ok a | None => Raise e end.

(** [[f(x) for x in l]]: the first exception aborts the comprehension. *)
Fixpoint traverse {A B} (f : A → result B) (l : list A) : result (list B) :=
  match l with
  | [] => Ok []
  | x :: l' => bind (f x) (λ y, bind (traverse f l') (λ ys, Ok (y :: ys)))
  end.
End Res.

(** [result] carries stdpp's monad notation: [x ← r; k]. *)
#[global] Instance result_ret : MRet result := λ A a, Ok a.
#[global] Instance result_bind : MBind result := λ A B k r, Res.bind r k.

(** ** Strings *)

(** [str.lower] on one character. *)
Definition lower_ascii (c : ascii) : ascii :=
  let n := N_of_ascii c in
  if ((65 <=? n) && (n <=? 90))%N then ascii_of_N (n + 32) else c.

(** [s.lower()] *)
Fixpoint lower (s : string) : string :=
  match s with
  | EmptyString => EmptyString
  | String c s' => String (lower_ascii c) (lower s')
  end.

(** [s.split(".")]: the pieces between the dots, never an empty list. *)
Fixpoint split_dot (s : string) : list string :=
  match s with
  | EmptyString => [EmptyString]
  | String c s' =>
      if Ascii.eqb c "."%char then EmptyString :: split_dot s'
      else match split_dot s' with
           | [] => [String c EmptyString]
           | piece :: pieces => String c piece :: pieces
           end
  end.

(** [s.endswith(suffix)] *)
Definition endswith (s suffix : string) : bool :=
  let n := String.length s in
  let k := String.length suffix in
  (k <=? n)%nat && String.eqb (String.substring (n - k) k s) suffix.

(** [l[-1]] *)
Definition last_item {A} (l : list A) : result A :=
  Res.of_option IndexError (last l).

(** ** The task table *)

(** [task_to_keys], in the order the literal lists its entries. *)
Definition task_to_keys : list (string * (string * option string)) :=
  [ ("cola", ("sentence", None));
    ("mnli", ("premise", Some "hypothesis"));
    ("mrpc", ("sentence1", Some "sentence2"));
    ("qnli", ("question", Some "sentence"));
    ("qqp", ("question1", Some "question2"));
    ("rte", ("sentence1", Some "sentence2"));
    ("sst2", ("sentence", None));
    ("stsb", ("sentence1", Some "sentence2"));
    ("wnli", ("sentence1", Some "sentence2")) ].

(** [task_to_keys.keys()] *)
Definition task_names : list string := task_to_keys.*1.

(** [d[k]] on a dict written as its item list. *)
Fixpoint assoc {V} (k : string) (d : list (string * V)) : option V :=
  match d with
  | [] => None
  | (k', v) :: d' => if String.eqb k k' then Some v else assoc k d'
  end.

(** [task_to_keys[name]] *)
Definition task_keys (name : string) : result (string * option string) :=
  Res.of_option KeyError (assoc name task_to_keys).

(** ** Data arguments *)

(** [GlueDataTrainingArguments].  [train_file], [validation_file],
    [pad_to_max_length] and [overwrite_cache] are inherited from
    [DataTrainingArguments]. *)
Record GlueDataTrainingArguments := {
  task_name : option string;
  max_seq_length : Z;
  train_file : option string;
  validation_file : option string;
  pad_to_max_length : bool;
  overwrite_cache : bool;
}.

Definition set_task_name (a : GlueDataTrainingArguments) (t : string) :=
  {| task_name := Some t;
     max_seq_length := max_seq_length a;
     train_file := train_file a;
     validation_file := validation_file a;
     pad_to_max_length := pad_to_max_length a;
     overwrite_cache := overwrite_cache a |}.

(** [extension in ["csv", "json"]] *)
Definition is_csv_or_json (extension : string) : bool :=
  bool_decide (extension ∈ ["csv"; "json"]).

(** [assert cond, msg] *)
Definition assert (cond : bool) (msg : string) : result unit :=
  if cond then Ok () else Raise (AssertionError msg).

(** [GlueDataTrainingArguments.__post_init__]: the arguments as the method
    leaves them, or the exception it raises. *)
Definition post_init (self : GlueDataTrainingArguments)
  : result GlueDataTrainingArguments :=
  match task_name self with
  | Some t =>
      let t := lower t in
      if bool_decide (t ∈ task_names) then Ok (set_task_name self t)
      else Raise (ValueError
                    ("Unknown task, you should pick one in "
                       +:+ String.concat "," task_names))
  | None =>
      match train_file self, validation_file self with
      | Some train, Some validation =>
          extension ← last_item (split_dot train);
          _ ← assert (is_csv_or_json extension)
                "`train_file` should be a csv or a json file.";
          extension ← last_item (split_dot validation);
          _ ← assert (is_csv_or_json extension)
                "`validation_file` should be a csv or a json file.";
          Ok self
      | _, _ =>
          Raise (ValueError
                   "Need either a GLUE task or a training/validation file.")
      end
  end.

(** ** Python values held in dataset cells *)

(** A cell is a number or a string.  Python's [int] and [float] compare and
    hash by numeric value, so both are embedded as exact rationals. *)
Inductive pyval :=
| PyNum (q : Qc)
| PyStr (s : string).

#[global] Instance pyval_eq_dec : EqDecision pyval.
Proof. solve_decision. Defined.

#[global] Instance pyval_countable : Countable pyval :=
  inj_countable'
    (λ v, match v with PyNum q => inl q | PyStr s => inr s end)
    (λ x, match x with inl q => PyNum q | inr s => PyStr s end)
    (λ v, match v with PyNum _ => eq_refl | PyStr _ => eq_refl end).

(** The integer [z] as a cell. *)
Definition PyInt (z : Z) : pyval := PyNum (Q2Qc (inject_Z z)).

(** A column (and any list obtained from one) holds cells of one kind. *)
Inductive column :=
| NumColumn (l : list Qc)
| StrColumn (l : list string).

#[global] Instance column_eq_dec : EqDecision column.
Proof. solve_decision. Defined.

Definition cells (c : column) : list pyval :=
  match c with
  | NumColumn l => PyNum <$> l
  | StrColumn l => PyStr <$> l
  end.

(** [len(c)] *)
Definition len (c : column) : nat := length (cells c).

(** [c[i]] *)
Definition item (c : column) (i : nat) : result pyval :=
  Res.of_option IndexError (cells c !! i).

(** The order Python's [<=] gives cells of one kind. *)
Definition py_le (v w : pyval) : Prop :=
  match v, w with
  | PyNum p, PyNum q => (p ≤ q)%Qc
  | PyStr s, PyStr t => String.le s t
  | _, _ => False
  end.

Section lists.
Context {A : Type} `{EqDecision A}.

(** The distinct elements of [l], each at its first occurrence. *)
Fixpoint unique (l : list A) : list A :=
  match l with
  | [] => []
  | x :: l' => x :: filter (λ y, y ≠ x) (unique l')
  end.
End lists.

(** [sorted(c)] and [c.sort()] *)
Definition sorted (c : column) : column :=
  match c with
  | NumColumn l => NumColumn (merge_sort Qcle l)
  | StrColumn l => StrColumn (merge_sort String.le l)
  end.

Definition unique_column (c : column) : column :=
  match c with
  | NumColumn l => NumColumn (unique l)
  | StrColumn l => StrColumn (unique l)
  end.

(** ** Datasets *)

(** [datasets.features.ClassLabel] and [datasets.features.Value], by what
    this file reads of them. *)
Inductive Feature :=
| ClassLabel (names : list string)
| Value (dtype : string).

(** [feature.names] *)
Definition Feature_names (f : Feature) : result (list string) :=
  match f with
  | ClassLabel names => Ok names
  | Value _ => Raise (AttributeError "names")
  end.

(** [feature.dtype] *)
Definition Feature_dtype (f : Feature) : string :=
  match f with
  | ClassLabel _ => "int64"
  | Value dtype => dtype
  end.

Record Dataset := {
  features : gmap string Feature;
  data : list (string * column);
}.

(** [dataset.column_names] *)
Definition column_names (d : Dataset) : list string := (data d).*1.

(** [dataset.unique(name)] *)
Definition Dataset_unique (d : Dataset) (name : string) : result column :=
  c ← Res.of_option KeyError (assoc name (data d));
  Ok (unique_column c).

(** A [DatasetDict]: split name to dataset. *)
Abbreviation DatasetDict := (gmap string Dataset).

(** [d[k]] *)
Definition getitem {K V} `{Countable K} (d : gmap K V) (k : K) : result V :=
  Res.of_option KeyError (d !! k).

(** A batch of examples handed to the preprocessing function. *)
Abbreviation Batch := (gmap string column).

(** What the tokenizer returns, and what a label rewrite adds to it. *)
Inductive encoded :=
| TokenRows (rows : list (list Z))
| LabelIds (ids : list Z).

Abbreviation BatchEncoding := (gmap string encoded).

(** ** Model configuration *)

(** A [PretrainedConfig], by its [label2id] dict in item order. *)
Record PretrainedConfig := {
  label2id : list (string * Z);
}.

(** The dict a comprehension builds from its items in order: a later item
    overwrites an earlier one with the same key. *)
Definition dict_of {K V} `{Countable K} (items : list (K * V)) : gmap K V :=
  fold_left (λ m kv, <[kv.1 := kv.2]> m) items ∅.

(** [d1 != d2] on dicts given by their items. *)
Definition dict_ne (d1 d2 : list (string * Z)) : bool :=
  bool_decide (dict_of d1 ≠ dict_of d2).

(** [{k.lower(): v for k, v in items}] *)
Definition lower_keys (items : list (string * Z)) : gmap string Z :=
  dict_of ((λ kv, (lower kv.1, kv.2)) <$> items).

(** [list(sorted(d.keys()))] *)
Definition sorted_keys (d : gmap string Z) : list string :=
  merge_sort String.le (elements (dom d)).

(** [ks == c] for a list of strings [ks] and a list of cells [c]. *)
Definition names_eq (ks : list string) (c : column) : bool :=
  match c with
  | StrColumn l => bool_decide (ks = l)
  | NumColumn l => bool_decide (ks = [] ∧ l = [])
  end.

(** ** The experiment object *)

(** What the module's [logger] is asked to emit. *)
Inductive log_record :=
| Warn_label_mismatch (model_labels : list string) (dataset_labels : column)
| Info_sample (index : nat).

(** The attributes [create_datasets] reads and writes on [self], each
    [None] until it is assigned, and the records logged so far. *)
Record GlueXP := {
  data_args : GlueDataTrainingArguments;
  self_datasets : option DatasetDict;
  self_is_regression : option bool;
  self_label_list : option column;
  self_num_labels : option nat;
  self_sentence1_key : option string;
  self_sentence2_key : option (option string);
  self_label_to_id : option (option (gmap pyval Z));
  logged : list log_record;
}.

(** A fresh object holding only its arguments. *)
Definition new_xp (args : GlueDataTrainingArguments) : GlueXP :=
  {| data_args := args; self_datasets := None; self_is_regression := None;
     self_label_list := None; self_num_labels := None;
     self_sentence1_key := None; self_sentence2_key := None;
     self_label_to_id := None; logged := [] |}.

(** A method body: from the object to its outcome and the object it leaves. *)
Definition method (A : Type) : Type := GlueXP → result A * GlueXP.

#[global] Instance method_ret : MRet method := λ A a self, (Ok a, self).
#[global] Instance method_bind : MBind method := λ A B k m self,
  match m self with
  | (Ok a, self') => k a self'
  | (Raise e, self') => (Raise e, self')
  end.

Module Self.
(** An expression that only computes: its exception, if any, leaves the
    object as it is. *)
Definition eval {A} (r : result A) : method A := λ self, (r, self).

Definition get {A} (f : GlueXP → A) : method A := λ self, (Ok (f self), self).

(** [self.attr], an [AttributeError] while [attr] is unassigned. *)
Definition getattr {A} (name : string) (f : GlueXP → option A) : method A :=
  λ self, (Res.of_option (AttributeError name) (f self), self).

Definition update (f : GlueXP → GlueXP) : method unit :=
  λ self, (Ok (), f self).

Definition set_datasets (v : DatasetDict) : method unit :=
  update (λ s,
    {| data_args := data_args s; self_datasets := Some v;
       self_is_regression := self_is_regression s;
       self_label_list := self_label_list s;
       self_num_labels := self_num_labels s;
       self_sentence1_key := self_sentence1_key s;
       self_sentence2_key := self_sentence2_key s;
       self_label_to_id := self_label_to_id s; logged := logged s |}).

Definition set_is_regression (v : bool) : method unit :=
  update (λ s,
    {| data_args := data_args s; self_datasets := self_datasets s;
       self_is_regression := Some v;
       self_label_list := self_label_list s;
       self_num_labels := self_num_labels s;
       self_sentence1_key := self_sentence1_key s;
       self_sentence2_key := self_sentence2_key s;
       self_label_to_id := self_label_to_id s; logged := logged s |}).

Definition set_label_list (v : column) : method unit :=
  update (λ s,
    {| data_args := data_args s; self_datasets := self_datasets s;
       self_is_regression := self_is_regression s;
       self_label_list := Some v;
       self_num_labels := self_num_labels s;
       self_sentence1_key := self_sentence1_key s;
       self_sentence2_key := self_sentence2_key s;
       self_label_to_id := self_label_to_id s; logged := logged s |}).

Definition set_num_labels (v : nat) : method unit :=
  update (λ s,
    {| data_args := data_args s; self_datasets := self_datasets s;
       self_is_regression := self_is_regression s;
       self_label_list := self_label_list s;
       self_num_labels := Some v;
       self_sentence1_key := self_sentence1_key s;
       self_sentence2_key := self_sentence2_key s;
       self_label_to_id := self_label_to_id s; logged := logged s |}).

Definition set_sentence_keys (k1 : string) (k2 : option string) : method unit :=
  update (λ s,
    {| data_args := data_args s; self_datasets := self_datasets s;
       self_is_regression := self_is_regression s;
       self_label_list := self_label_list s;
       self_num_labels := self_num_labels s;
       self_sentence1_key := Some k1;
       self_sentence2_key := Some k2;
       self_label_to_id := self_label_to_id s; logged := logged s |}).

Definition set_label_to_id (v : option (gmap pyval Z)) : method unit :=
  update (λ s,
    {| data_args := data_args s; self_datasets := self_datasets s;
       self_is_regression := self_is_regression s;
       self_label_list := self_label_list s;
       self_num_labels := self_num_labels s;
       self_sentence1_key := self_sentence1_key s;
       self_sentence2_key := self_sentence2_key s;
       self_label_to_id := Some v; logged := logged s |}).

(** [logger.warn(...)], [logger.info(...)] *)
Definition log (r : log_record) : method unit :=
  update (λ s,
    {| data_args := data_args s; self_datasets := self_datasets s;
       self_is_regression := self_is_regression s;
       self_label_list := self_label_list s;
       self_num_labels := self_num_labels s;
       self_sentence1_key := self_sentence1_key s;
       self_sentence2_key := self_sentence2_key s;
       self_label_to_id := self_label_to_id s;
       logged := logged s ++ [r] |}).

(** [for x in l: body(x)] *)
Fixpoint for_each {A} (l : list A) (body : A → method unit) : method unit :=
  match l with
  | [] => mret ()
  | x :: l' => _ ← body x; for_each l' body
  end.
End Self.

(** Reading a local variable that an earlier branch may have left
    unassigned. *)
Definition local {A} (name : string) (v : option A) : result A :=
  Res.of_option (UnboundLocalError name) v.

(** ** [GlueXP.create_datasets] *)

(** The second argument of [load_dataset]: a configuration name, or the
    [data_files] dict. *)
Inductive load_args :=
| Config_name (name : string)
| Data_files (files : list (string * option string)).

(** [padding]: ["max_length"], or [False]. *)
Inductive padding_t :=
| Pad_max_length
| Pad_False.

(** Lines 164-184: the locals [is_regression], [label_list] (unassigned on
    the regression branches) and [num_labels]. *)
Definition derive_labels (task : option string) (datasets : DatasetDict)
  : result (bool * option column * nat) :=
  match task with
  | Some t =>
      let is_regression := bool_decide (t = "stsb") in
      if negb is_regression then
        train ← getitem datasets "train";
        feature ← getitem (features train) "label";
        names ← Feature_names feature;
        let label_list := StrColumn names in
        Ok (is_regression, Some label_list, len label_list)
      else
        Ok (is_regression, None, 1%nat)
  | None =>
      train ← getitem datasets "train";
      feature ← getitem (features train) "label";
      let is_regression :=
        bool_decide (Feature_dtype feature ∈ ["float32"; "float64"]) in
      if is_regression then
        Ok (is_regression, None, 1%nat)
      else
        label_list ← Dataset_unique train "label";
        let label_list := sorted label_list in
        Ok (is_regression, Some label_list, len label_list)
  end.

(** Lines 190-201: the locals [sentence1_key] and [sentence2_key]. *)
Definition sentence_keys (task : option string) (datasets : DatasetDict)
  : result (string * option string) :=
  match task with
  | Some t => task_keys t
  | None =>
      train ← getitem datasets "train";
      let non_label_column_names :=
        filter (λ name, name ≠ "label") (column_names train) in
      if bool_decide ("sentence1" ∈ non_label_column_names)
         && bool_decide ("sentence2" ∈ non_label_column_names)
      then Ok ("sentence1", Some "sentence2")
      else if bool_decide (2 ≤ length non_label_column_names)%nat then
        match take 2 non_label_column_names with
        | [k1; k2] => Ok (k1, Some k2)
        | _ => Raise (ValueError "not enough values to unpack")
        end
      else
        k1 ← Res.of_option IndexError (non_label_column_names !! 0%nat);
        Ok (k1, None)
  end.

(** Lines 206-212: the locals [padding] and [max_length]. *)
Definition padding_strategy (args : GlueDataTrainingArguments)
  : padding_t * option Z :=
  if pad_to_max_length args then (Pad_max_length, Some (max_seq_length args))
  else (Pad_False, None).

(** [label_name_to_id[v]] *)
Definition name_to_id (label_name_to_id : gmap string Z) (v : pyval) : result Z :=
  match v with
  | PyStr s => getitem label_name_to_id s
  | PyNum _ => Raise KeyError
  end.

(** [{i: label_name_to_id[label_list[i]] for i in range(num_labels)}] *)
Definition remap_table (label_name_to_id : gmap string Z) (label_list : column)
    (num_labels : nat) : result (gmap pyval Z) :=
  items ← Res.traverse
             (λ i, v ← item label_list i;
                   id ← name_to_id label_name_to_id v;
                   Ok (PyInt (Z.of_nat i), id))
             (seq 0 num_labels);
  Ok (dict_of items).

(** [{v: i for i, v in enumerate(label_list)}] *)
Definition dense_table (label_list : column) : gmap pyval Z :=
  dict_of (imap (λ i v, (v, Z.of_nat i)) (cells label_list)).

Section GlueXP.
(** Collaborators defined outside this file. *)
Variable load_dataset : string → load_args → result DatasetDict.
(** [self.create_config()], of the base class [XP]: reads the object. *)
Variable create_config : GlueXP → result PretrainedConfig.
(** [PretrainedConfig(num_labels=n).label2id] *)
Variable default_label2id : nat → list (string * Z).
(** [self.tokenizer] applied to the argument tuple, with [padding],
    [max_length] and [truncation]. *)
Variable tokenizer :
  list column → padding_t → option Z → bool → result BatchEncoding.
(** The dataset dict [datasets.map] returns, by split; its length, its
    rows, and [random.sample(range(n), k)]. *)
Variable Mapped : Type.
Variable DatasetDict_map :
  (Batch → result BatchEncoding) → bool → bool → DatasetDict →
  result (gmap string Mapped).
Variable Mapped_len : Mapped → nat.
Variable Mapped_row : Mapped → nat → result unit.
Variable random_sample : nat → nat → result (list nat).

(** Lines 239-250, closed over the locals of [create_datasets] it names. *)
Definition preprocess_function
    (sentence1_key : string) (sentence2_key : option string)
    (padding : padding_t) (max_length : option Z)
    (label_to_id : option (gmap pyval Z))
    (examples : Batch) : result BatchEncoding :=
  args ← match sentence2_key with
         | None =>
             a ← getitem examples sentence1_key;
             Ok [a]
         | Some sentence2_key =>
             a ← getitem examples sentence1_key;
             b ← getitem examples sentence2_key;
             Ok [a; b]
         end;
  result ← tokenizer args padding max_length true;
  match label_to_id, examples !! "label" with
  | Some label_to_id, Some labels =>
      ids ← Res.traverse (getitem label_to_id) (cells labels);
      Ok (<["label" := LabelIds ids]> result)
  | _, _ => Ok result
  end.

(** Lines 225-233: the body of the remap branch; the value it leaves in
    the local [label_to_id]. *)
Definition remap_block (model_config : PretrainedConfig)
    (label_list : option column) (num_labels : nat)
  : method (option (gmap pyval Z)) :=
  let label_to_id := None in
  let label_name_to_id := lower_keys (label2id model_config) in
  label_list ← Self.eval (local "label_list" label_list);
  if names_eq (sorted_keys label_name_to_id) (sorted label_list) then
    label_to_id ← Self.eval
      (remap_table label_name_to_id label_list num_labels);
    mret (Some label_to_id)
  else
    _ ← Self.log (Warn_label_mismatch (sorted_keys label_name_to_id)
                                      (sorted label_list));
    mret label_to_id.

(** Lines 215-235: the local [label_to_id]. *)
Definition resolve_label_to_id (task : option string)
    (label_list : option column) (num_labels : nat)
  : method (option (gmap pyval Z)) :=
  let label_to_id := None in
  model_config ← (λ self, (create_config self, self));
  differs ← mret (dict_ne (label2id model_config)
                          (default_label2id num_labels));
  gate ← (if differs && bool_decide (task ≠ None)
          then Self.getattr "is_regression" self_is_regression
          else mret false);
  if (gate : bool) then
    remap_block model_config label_list num_labels
  else if bool_decide (task = None) then
    label_list ← Self.eval (local "label_list" label_list);
    mret (Some (dense_table label_list))
  else
    mret label_to_id.

(** Lines 137-157: the local [datasets]. *)
Definition load (data_args : GlueDataTrainingArguments)
  : result DatasetDict :=
  match task_name data_args with
  | Some t => load_dataset "glue" (Config_name t)
  | None =>
      train ← Res.of_option (AttributeError "endswith")
                            (train_file data_args);
      if endswith train ".csv" then
        load_dataset "csv"
          (Data_files [("train", train_file data_args);
                       ("validation", validation_file data_args)])
      else
        load_dataset "json"
          (Data_files [("train", train_file data_args);
                       ("validation", validation_file data_args)])
  end.

(** Lines 252-265: the splits are mapped through the preprocessing
    function and three rows of the training split are logged. *)
Definition map_and_sample (data_args : GlueDataTrainingArguments)
    (datasets : DatasetDict)
    (preprocess_function : Batch → result BatchEncoding) : method unit :=
  datasets ← Self.eval
    (DatasetDict_map preprocess_function
       true (negb (overwrite_cache data_args)) datasets);
  train_dataset ← Self.eval (getitem datasets "train");
  eval_dataset ← Self.eval
    (getitem datasets
       (if bool_decide (task_name data_args = Some "mnli")
        then "validation_matched" else "validation"));
  _ ← (if bool_decide (task_name data_args ≠ None) then
         test_dataset ← Self.eval
           (getitem datasets
              (if bool_decide (task_name data_args = Some "mnli")
               then "test_matched" else "test"));
         mret ()
       else mret ());
  (* Log a few random samples from the training set *)
  sample ← Self.eval (random_sample (Mapped_len train_dataset) 3);
  Self.for_each sample (λ index,
    _ ← Self.eval (Mapped_row train_dataset index);
    Self.log (Info_sample index)).

Definition create_datasets : method unit :=
  data_args ← Self.get data_args;
  datasets ← Self.eval (load data_args);
  _ ← Self.set_datasets datasets;
  (* Labels *)
  '(is_regression, label_list, num_labels) ←
    Self.eval (derive_labels (task_name data_args) datasets);
  _ ← Self.set_is_regression is_regression;
  label_list_value ← Self.eval (local "label_list" label_list);
  _ ← Self.set_label_list label_list_value;
  _ ← Self.set_num_labels num_labels;
  (* Preprocessing the datasets *)
  '(sentence1_key, sentence2_key) ←
    Self.eval (sentence_keys (task_name data_args) datasets);
  _ ← Self.set_sentence_keys sentence1_key sentence2_key;
  (* Padding strategy *)
  let '(padding, max_length) := padding_strategy data_args in
  label_to_id ←
    resolve_label_to_id (task_name data_args) label_list num_labels;
  _ ← Self.set_label_to_id label_to_id;
  map_and_sample data_args datasets
    (preprocess_function sentence1_key sentence2_key padding max_length
                         label_to_id).
End GlueXP.

(** ** Arrays

    The part of NumPy that [compute_metrics] calls, on exact rationals: the
    rounding of [float32] and [float64] arithmetic is not represented. *)

(** A float an array reduction returns: a number, or [nan]. *)
Inductive pyfloat :=
| Fin (q : Qc)
| NaN.

#[global] Instance pyfloat_eq_dec : EqDecision pyfloat.
Proof. solve_decision. Defined.

(** A two-dimensional array of shape [(length rows, ncols)], as the model
    head returns its predictions. *)
Record matrix := {
  ncols : nat;
  rows : list (list Qc);
}.

(** Arrays of dimension 0, 1 and 2. *)
Inductive ndarray :=
| Array0 (x : Qc)
| Array1 (xs : list Qc)
| Array2 (m : matrix).

Module np.
Definition sum (xs : list Qc) : Qc := foldr Qcplus 0%Qc xs.

Definition of_nat (n : nat) : Qc := Q2Qc (inject_Z (Z.of_nat n)).

(** [a.mean()] of the elements [xs] of [a]: [nan] on an empty array. *)
Definition mean_of (xs : list Qc) : pyfloat :=
  match xs with
  | [] => NaN
  | _ => Fin (sum xs / of_nat (length xs))%Qc
  end.

Definition elements (a : ndarray) : list Qc :=
  match a with
  | Array0 x => [x]
  | Array1 xs => xs
  | Array2 m => concat (rows m)
  end.

(** [a.mean().item()] *)
Definition mean (a : ndarray) : pyfloat := mean_of (elements a).

(** [np.squeeze(m)]: the axes of length one are dropped. *)
Definition squeeze (m : matrix) : ndarray :=
  let n := length (rows m) in
  if bool_decide (ncols m = 1%nat) then
    match concat (rows m) with
    | [x] => if bool_decide (n = 1%nat) then Array0 x else Array1 [x]
    | xs => Array1 xs
    end
  else
    match rows m with
    | [row] => Array1 row
    | _ => Array2 m
    end.

(** The index of the first largest element of [row], scanning from
    position [i] with the best candidate [(best, at_)] so far. *)
Fixpoint argmax_from (i : nat) (best : Qc) (at_ : nat) (row : list Qc) : nat :=
  match row with
  | [] => at_
  | x :: row' =>
      if bool_decide (best < x)%Qc then argmax_from (S i) x i row'
      else argmax_from (S i) best at_ row'
  end.

Definition argmax_row (row : list Qc) : result nat :=
  match row with
  | [] => Raise (ValueError "attempt to get argmax of an empty sequence")
  | x :: row' => Ok (argmax_from 1 x 0 row')
  end.

(** [np.argmax(m, axis=1)] *)
Definition argmax (m : matrix) : result (list Qc) :=
  ixs ← Res.traverse argmax_row (rows m);
  Ok (fmap (M:=list) of_nat ixs).

(** An elementwise operation on two one-dimensional arrays, a length of
    one being stretched to the other length. *)
Definition broadcast1 {C} (f : Qc → Qc → C) (xs ys : list Qc)
  : result (list C) :=
  if bool_decide (length xs = length ys) then Ok (zip_with f xs ys)
  else match xs, ys with
       | [x], _ => Ok (f x <$> ys)
       | _, [y] => Ok ((λ x, f x y) <$> xs)
       | _, _ => Raise (ValueError
                          "operands could not be broadcast together")
       end.

(** The length two axes of lengths [k] and [n] are stretched to. *)
Definition broadcast_len (k n : nat) : result nat :=
  if bool_decide (k = n) then Ok k
  else if bool_decide (k = 1%nat) then Ok n
  else if bool_decide (n = 1%nat) then Ok k
  else Raise (ValueError "operands could not be broadcast together").

(** [a - ys] for a one-dimensional [ys]. *)
Definition sub (a : ndarray) (ys : list Qc) : result ndarray :=
  match a with
  | Array0 x => Ok (Array1 ((λ y, x - y)%Qc <$> ys))
  | Array1 xs => zs ← broadcast1 Qcminus xs ys; Ok (Array1 zs)
  | Array2 m =>
      k ← broadcast_len (ncols m) (length ys);
      rs ← Res.traverse (λ row, broadcast1 Qcminus row ys) (rows m);
      Ok (Array2 {| ncols := k; rows := rs |})
  end.

Definition map (f : Qc → Qc) (a : ndarray) : ndarray :=
  match a with
  | Array0 x => Array0 (f x)
  | Array1 xs => Array1 (f <$> xs)
  | Array2 m =>
      Array2 {| ncols := ncols m; rows := fmap (M:=list) f <$> rows m |}
  end.

(** [a ** 2] *)
Definition square (a : ndarray) : ndarray := map (λ x, x * x)%Qc a.

(** [(xs == ys).astype(np.float32)] *)
Definition equal_as_float (xs ys : list Qc) : result ndarray :=
  zs ← broadcast1 (λ x y, if bool_decide (x = y) then 1%Qc else 0%Qc) xs ys;
  Ok (Array1 zs).
End np.

(** ** [compute_metrics] *)

(** [p.predictions]: the array, or a tuple whose first item is the array. *)
Inductive predictions_t :=
| Tuple (items : list matrix)
| Array (m : matrix).

(** [transformers.EvalPrediction] *)
Record EvalPrediction := {
  predictions : predictions_t;
  label_ids : list Qc;
}.

Section create_trainer.
(** [load_metric("glue", task).compute(predictions=, references=)] *)
Variable metric_compute :
  string → ndarray → list Qc → result (gmap string pyfloat).

(** [np.mean(list(result.values())).item()] *)
Definition mean_values (result : gmap string pyfloat) : pyfloat :=
  let values := (map_to_list result).*2 in
  match mapM (λ v, match v with Fin q => Some q | NaN => None end) values with
  | Some qs => np.mean_of qs
  | None => NaN
  end.

(** Lines 284-295, closed over [self] and [data_args]. *)
Definition compute_metrics (self : GlueXP) (p : EvalPrediction)
  : result (gmap string pyfloat) :=
  preds ← match predictions p with
          | Tuple items => Res.of_option IndexError (items !! 0%nat)
          | Array m => Ok m
          end;
  is_regression ← Res.of_option (AttributeError "is_regression")
                                (self_is_regression self);
  preds ← (if (is_regression : bool) then Ok (np.squeeze preds)
           else ixs ← np.argmax preds; Ok (Array1 ixs));
  match task_name (data_args self) with
  | Some task =>
      result ← metric_compute task preds (label_ids p);
      if bool_decide (1 < size result)%nat then
        Ok (<["combined_score" := mean_values result]> result)
      else Ok result
  | None =>
      if (is_regression : bool) then
        diff ← np.sub preds (label_ids p);
        Ok {["mse" := np.mean (np.square diff)]}
      else
        hits ← np.equal_as_float (np.elements preds) (label_ids p);
        Ok {["accuracy" := np.mean hits]}
  end.
End create_trainer.

(** ** [GlueXP.evaluate_model] *)

(** A value of the [parameters] dict. *)
Inductive param :=
| PStr (s : string)
| PNum (z : Z).

(** What the entry point does to its surroundings. *)
Inductive event :=
| Run_from_dict (parameters : list (string * param))
| Open_file (path : string).

(** A computation that leaves a trace of events. *)
Definition io (A : Type) : Type := list event → result A * list event.

#[global] Instance io_ret : MRet io := λ A a tr, (Ok a, tr).
#[global] Instance io_bind : MBind io := λ A B k m tr,
  match m tr with
  | (Ok a, tr') => k a tr'
  | (Raise e, tr') => (Raise e, tr')
  end.

(** [path / name] *)
Definition path_join (path name : string) : string :=
  if endswith path "/" then path +:+ name else path +:+ "/" +:+ name.

Section evaluate_model.
(** [str(Path(src_path).resolve())] *)
Variable resolve : string → string.
(** The outcome of [cls.run_from_dict(parameters)], of the base class. *)
Variable run_from_dict : list (string * param) → result unit.
(** The parsed content of a JSON file, if it can be opened and parsed. *)
Variable json : Type.
Variable json_load : string → result json.

Definition io_assert (cond : bool) : io unit :=
  λ tr, (assert cond EmptyString, tr).

Definition io_run (parameters : list (string * param)) : io unit :=
  λ tr, (run_from_dict parameters, tr ++ [Run_from_dict parameters]).

(** [with open(path) as f: json.load(f)] *)
Definition io_load (path : string) : io json :=
  λ tr, (json_load path, tr ++ [Open_file path]).

Definition evaluate_model (src_path : string) (optimize_mode : string)
  : io (list (string * json)) :=
  _ ← io_assert false;
  let src_path := resolve src_path in
  let src_path_str := src_path in
  let parameters :=
    [ ("model_name_or_path", PStr src_path_str);
      ("dataset_name", PStr "squad");
      ("do_train", PNum 0);
      ("do_eval", PNum 1);
      ("per_device_train_batch_size", PNum 16);
      ("max_seq_length", PNum 384);
      ("doc_stride", PNum 128);
      ("output_dir", PStr src_path_str);
      ("logging_dir", PStr src_path_str);
      ("overwrite_cache", PNum 0);
      ("overwrite_output_dir", PNum 0);
      ("per_device_eval_batch_size", PNum 128);
      ("optimize_model_before_eval", PStr optimize_mode) ] in
  _ ← io_run parameters;
  j ← io_load (path_join (path_join src_path "checkpoint-0")
                         "evaluate_timing.json");
  j2 ← io_load (path_join (path_join src_path "checkpoint-0")
                          "eval_metrics.json");
  let ret := [("timings", j); ("metrics", j2)] in
  mret ret.
End evaluate_model.

(** ** Vocabulary of the statements *)

(** The nine GLUE task identifiers. *)
Definition glue_tasks : list string :=
  ["cola"; "mnli"; "mrpc"; "qnli"; "qqp"; "rte"; "sst2"; "stsb"; "wnli"].

Fixpoint dotless (s : string) : bool :=
  match s with
  | EmptyString => true
  | String c s' => negb (Ascii.eqb c "."%char) && dotless s'
  end.

(** [e] is what follows the last dot of [file], or all of [file] when it
    has no dot. *)
Definition extension_of (file e : string) : Prop :=
  dotless e ∧ (file = e ∨ ∃ stem, file = stem +:+ "." +:+ e).

Definition supported_file (file : string) : Prop :=
  ∃ e, extension_of file e ∧ (e = "csv" ∨ e = "json").

(** The training split's label column has a floating-point element type. *)
Definition float_labels (datasets : DatasetDict) : Prop :=
  ∃ train feature,
    datasets !! "train" = Some train ∧
    features train !! "label" = Some feature ∧
    Feature_dtype feature ∈ ["float32"; "float64"].

(** The runs in which [is_regression] is derived as true. *)
Definition regression_run (task : option string) (datasets : DatasetDict)
  : Prop :=
  task = Some "stsb" ∨ (task = None ∧ float_labels datasets).



(** [table] sends each value of [label_list] to its position. *)
Definition is_dense_index_of (label_list : column) (table : gmap pyval Z)
  : Prop :=
  ∀ v z, table !! v = Some z ↔
         ∃ i : nat, z = Z.of_nat i ∧ cells label_list !! i = Some v.




(** [m] leaves the observation [f] of the object as it was. *)
Definition keeps {A B} (f : GlueXP → B) (m : method A) : Prop :=
  ∀ self, f (m self).2 = f self.

(** The observations that logging leaves alone. *)
Definition unlogged {B} (f : GlueXP → B) : Prop :=
  ∀ r, keeps f (Self.log r).

(** The object once a classification run has assigned its label
    attributes. *)
Definition with_labels (self : GlueXP) (datasets : DatasetDict)
    (label_list : column) (num_labels : nat) : GlueXP :=
  {| data_args := data_args self;
     self_datasets := Some datasets;
     self_is_regression := Some false;
     self_label_list := Some label_list;
     self_num_labels := Some num_labels;
     self_sentence1_key := self_sentence1_key self;
     self_sentence2_key := self_sentence2_key self;
     self_label_to_id := self_label_to_id self;
     logged := logged self |}.

(** The object a regression run leaves behind. *)
Definition at_label_list (self : GlueXP) (datasets : DatasetDict) : GlueXP :=
  {| data_args := data_args self;
     self_datasets := Some datasets;
     self_is_regression := Some true;
     self_label_list := self_label_list self;
     self_num_labels := self_num_labels self;
     self_sentence1_key := self_sentence1_key self;
     self_sentence2_key := self_sentence2_key self;
     self_label_to_id := self_label_to_id self;
     logged := logged self |}.

#[global] Instance PyNum_inj : Inj (=) (=) PyNum.
Proof. by intros ?? [=]. Qed.
#[global] Instance PyStr_inj : Inj (=) (=) PyStr.
Proof. by intros ?? [=]. Qed.
#[global] Instance PyInt_inj : Inj (=) (=) PyInt.
Proof.
  intros z1 z2 Heq. apply (inj PyNum), Q2Qc_eq_iff in Heq.
  by apply inject_Z_injective.
Qed.

(** ** Sample collaborators

    Simple stand-ins for the collaborators, used to run the definitions on
    concrete inputs. *)
Module Sample.
(** [PretrainedConfig(num_labels=n).label2id]: [LABEL_0], [LABEL_1], ... *)
Definition default_label2id (n : nat) : list (string * Z) :=
  (λ i : nat, ("LABEL_" +:+ pretty i, Z.of_nat i)) <$> seq 0 n.

Definition codes (v : pyval) : list Z :=
  match v with
  | PyStr s => (λ c, Z.of_N (N_of_ascii c)) <$> list_ascii_of_string s
  | PyNum _ => []
  end.

(** A character-level tokenizer: an example is encoded by the character
    codes of its text, or of its two texts one after the other. *)
Definition tokenizer (args : list column) (padding : padding_t)
    (max_length : option Z) (truncation : bool) : result BatchEncoding :=
  match args with
  | [a] => Ok {["input_ids" := TokenRows (codes <$> cells a)]}
  | [a; b] =>
      Ok {["input_ids" :=
             TokenRows (zip_with (λ x y, codes x ++ codes y)
                                 (cells a) (cells b))]}
  | _ => Raise (ValueError "text input must be one or two sequences")
  end.

Definition num_rows (d : Dataset) : nat :=
  match data d with
  | [] => 0
  | (_, c) :: _ => len c
  end.

(** Each split is mapped as one batch and kept by its number of rows. *)
Definition DatasetDict_map (f : Batch → result BatchEncoding)
    (batched load_from_cache_file : bool) (datasets : DatasetDict)
  : result (gmap string nat) :=
  splits ← Res.traverse
             (λ kd : string * Dataset,
                _ ← f (list_to_map (data kd.2));
                Ok (kd.1, num_rows kd.2))
             (map_to_list datasets);
  Ok (list_to_map splits).

Definition Mapped_len (n : nat) : nat := n.

Definition Mapped_row (n index : nat) : result unit :=
  if bool_decide (index < n)%nat then Ok () else Raise IndexError.

(** [random.sample(range(n), k)], drawing the first [k] indices. *)
Definition random_sample (n k : nat) : result (list nat) :=
  if bool_decide (k ≤ n)%nat then Ok (seq 0 k)
  else Raise (ValueError "Sample larger than population or is negative").

Definition args (task : option string) (train validation : option string)
  : GlueDataTrainingArguments :=
  {| task_name := task; max_seq_length := 128; train_file := train;
     validation_file := validation; pad_to_max_length := true;
     overwrite_cache := false |}.

(** A split of a sentence-pair task with two classes. *)
Definition pair_split (names : list string) : Dataset :=
  {| features := {["label" := ClassLabel names]};
     data := [("sentence1", StrColumn ["a b"; "c"; "d e"]);
              ("sentence2", StrColumn ["a"; "c d"; "e"]);
              ("label", NumColumn [1; 0; 1]%Qc);
              ("idx", NumColumn [0; 1; 1 + 1]%Qc)] |}.

(** What the hub returns for [mrpc]. *)
Definition mrpc : DatasetDict :=
  let split := pair_split ["not_equivalent"; "equivalent"] in
  {["train" := split; "validation" := split; "test" := split]}.

(** What the hub returns for [stsb]: similarity scores as labels. *)
Definition stsb_split : Dataset :=
  {| features := {["label" := Value "float32"]};
     data := [("sentence1", StrColumn ["a b"; "c"; "d e"]);
              ("sentence2", StrColumn ["a"; "c d"; "e"]);
              ("label", NumColumn [1 + 1; 0; 1]%Qc);
              ("idx", NumColumn [0; 1; 1 + 1]%Qc)] |}.

Definition stsb : DatasetDict :=
  {["train" := stsb_split; "validation" := stsb_split;
    "test" := stsb_split]}.

(** A CSV pair with string labels, and one with scores. *)
Definition reviews_split : Dataset :=
  {| features := {["label" := Value "string"]};
     data := [("text", StrColumn ["good"; "bad"; "fine"]);
              ("label", StrColumn ["pos"; "neg"; "pos"])] |}.

Definition reviews : DatasetDict :=
  {["train" := reviews_split; "validation" := reviews_split]}.

Definition scores_split : Dataset :=
  {| features := {["label" := Value "float64"]};
     data := [("text", StrColumn ["good"; "bad"; "fine"]);
              ("label", NumColumn [1; 0; 1]%Qc)] |}.

Definition scores : DatasetDict :=
  {["train" := scores_split; "validation" := scores_split]}.

(** A model whose configuration names the two [mrpc] classes in capitals,
    in the order opposite to the dataset's. *)
Definition mrpc_config : PretrainedConfig :=
  {| label2id := [("EQUIVALENT", 0); ("NOT_EQUIVALENT", 1)] |}.


Definition default_config (n : nat) : PretrainedConfig :=
  {| label2id := default_label2id n |}.

(** [create_datasets] with the sample collaborators, [load_dataset]
    returning [datasets] and [create_config] returning [config]. *)
Definition run (datasets : DatasetDict) (config : PretrainedConfig)
  : method unit :=
  create_datasets (λ _ _, Ok datasets) (λ _, Ok config) default_label2id
                  tokenizer nat DatasetDict_map Mapped_len Mapped_row
                  random_sample.
End Sample.

(** ** [GlueXP._model_init] *)

(** [needle in s] on strings. *)
Fixpoint contains (needle s : string) : bool :=
  String.prefix needle s
  || match s with
     | EmptyString => false
     | String _ s' => contains needle s'
     end.

(** [ModelArguments], of the module [nn_pruning.examples.xp], by the fields
    this file reads. *)
Record ModelArguments := {
  model_name_or_path : string;
  cache_dir : option string;
}.

Section model_init.
(** [AutoModelForSequenceClassification.from_pretrained(path, from_tf=,
    config=, cache_dir=)] *)
Variable Model : Type.
Variable from_pretrained :
  string → bool → PretrainedConfig → option string → result Model.

Definition _model_init (model_args : ModelArguments)
    (model_config : PretrainedConfig) : result Model :=
  let model :=
    from_pretrained
      (model_name_or_path model_args)
      (contains ".ckpt" (model_name_or_path model_args))
      model_config
      (cache_dir model_args) in
  model.
End model_init.

(** ** Vocabulary of the further statements *)

(** The object with [records] appended to what was logged. *)
Definition logging (records : list log_record) (self : GlueXP) : GlueXP :=
  {| data_args := data_args self;
     self_datasets := self_datasets self;
     self_is_regression := self_is_regression self;
     self_label_list := self_label_list self;
     self_num_labels := self_num_labels self;
     self_sentence1_key := self_sentence1_key self;
     self_sentence2_key := self_sentence2_key self;
     self_label_to_id := self_label_to_id self;
     logged := logged self ++ records |}.

(** The object a classification run leaves when it returns. *)
Definition completed (self : GlueXP) (datasets : DatasetDict)
    (label_list : column) (keys : string * option string)
    (label_to_id : option (gmap pyval Z)) (sample : list nat) : GlueXP :=
  {| data_args := data_args self;
     self_datasets := Some datasets;
     self_is_regression := Some false;
     self_label_list := Some label_list;
     self_num_labels := Some (len label_list);
     self_sentence1_key := Some keys.1;
     self_sentence2_key := Some keys.2;
     self_label_to_id := Some label_to_id;
     logged := logged self ++ (Info_sample <$> sample) |}.

(** The splits [create_datasets] reads after mapping, by task name. *)
Definition required_splits (task : option string) : list string :=
  match task with
  | None => ["train"; "validation"]
  | Some t =>
      if bool_decide (t = "mnli")
      then ["train"; "validation_matched"; "test_matched"]
      else ["train"; "validation"; "test"]
  end.

(** The strict order Python's [<] gives cells of one kind. *)
Definition py_lt (v w : pyval) : Prop := py_le v w ∧ v ≠ w.

(** * Properties *)

Lemma split_dot_nonempty s : split_dot s ≠ [].
Proof.
  destruct s as [|c s]; simpl; [done|].
  destruct (Ascii.eqb c "."); [done|]. by destruct (split_dot s).
Qed.

Lemma split_dot_dotless e : dotless e → split_dot e = [e].
Proof.
  induction e as [|c e IH]; simpl; [done|].
  destruct (Ascii.eqb c "."); simpl; [done|]. intros He. by rewrite IH.
Qed.

Lemma split_dot_app stem e :
  split_dot (stem +:+ "." +:+ e) = split_dot stem ++ split_dot e.
Proof.
  induction stem as [|c stem IH]; [done|].
  change (String c stem +:+ "." +:+ e) with (String c (stem +:+ "." +:+ e)).
  simpl. rewrite IH. destruct (Ascii.eqb c "."); [done|].
  pose proof (split_dot_nonempty stem). by destruct (split_dot stem).
Qed.

Lemma extension_exists s : ∃ e, extension_of s e.
Proof.
  induction s as [|c s [e [He Hs]]].
  - exists EmptyString. split; [done|by left].
  - destruct (Ascii.eqb c ".") eqn:Hc.
    + apply Ascii.eqb_eq in Hc as ->. destruct Hs as [->|[stem ->]].
      * exists e. split; [done|]. right. by exists EmptyString.
      * exists e. split; [done|]. right. by exists (String "." stem).
    + destruct Hs as [->|[stem ->]].
      * exists (String c e). split; [|by left]. simpl. by rewrite Hc.
      * exists e. split; [done|]. right. by exists (String c stem).
Qed.

Lemma last_split_dot s e : last (split_dot s) = Some e ↔ extension_of s e.
Proof.
  assert (∀ s e, extension_of s e → last (split_dot s) = Some e) as Hback.
  { clear. intros s e [He [->|[stem ->]]].
    - by rewrite split_dot_dotless.
    - rewrite split_dot_app, (split_dot_dotless e) by done. apply last_snoc. }
  split; [|apply Hback].
  intros Hlast. destruct (extension_exists s) as [e' He'].
  pose proof (Hback _ _ He') as Hlast'. congruence.
Qed.

Lemma supported_file_decide file :
  supported_file file ↔
  ∃ e, last_item (split_dot file) = Ok e ∧ is_csv_or_json e = true.
Proof.
  unfold supported_file, last_item, is_csv_or_json. split.
  - intros (e & He & Hsup). exists e. apply last_split_dot in He as ->.
    split; [done|]. apply bool_decide_eq_true.
    destruct Hsup as [-> | ->]; [left|right; left].
  - intros (e & He & Hsup). exists e.
    destruct (last (split_dot file)) as [e'|] eqn:Hl; simplify_eq/=.
    apply last_split_dot in Hl. split; [done|].
    apply bool_decide_eq_true in Hsup.
    apply elem_of_cons in Hsup as [?|Hsup]; [by left|].
    apply elem_of_cons in Hsup as [?|Hsup]; [by right|].
    by apply elem_of_nil in Hsup.
Qed.

Lemma task_names_glue_tasks : task_names = glue_tasks.
Proof. reflexivity. Qed.

Lemma post_init_files (args : GlueDataTrainingArguments) train validation :
  task_name args = None → train_file args = Some train →
  validation_file args = Some validation →
  (supported_file train ∧ supported_file validation →
   post_init args = Ok args) ∧
  (raises (post_init args) ↔
   ¬ supported_file train ∨ ¬ supported_file validation).
Proof.
  intros Ht Htr Hv. unfold post_init. rewrite Ht, Htr, Hv.
  rewrite !supported_file_decide.
  destruct (last_item (split_dot train)) as [e1|] eqn:H1; simpl.
  2:{ split; [by intros [(x & ? & _) _]|]. split; [|done].
      intros _. left. by intros (x & ? & _). }
  destruct (is_csv_or_json e1) eqn:Hs1; simpl.
  2:{ split; [intros [(x & ? & ?) _]; congruence|]. split; [|done].
      intros _. left. intros (x & ? & ?). congruence. }
  destruct (last_item (split_dot validation)) as [e2|] eqn:H2; simpl.
  2:{ split; [by intros [_ (x & ? & _)]|]. split; [|done].
      intros _. right. by intros (x & ? & _). }
  destruct (is_csv_or_json e2) eqn:Hs2; simpl.
  2:{ split; [intros [_ (x & ? & ?)]; congruence|]. split; [|done].
      intros _. right. intros (x & ? & ?). congruence. }
  split; [done|]. split; [done|]. intros [[]|[]]; eauto.
Qed.

(** C8: [__post_init__] raises exactly when a task name is given whose
    lower-cased form is not one of the nine GLUE identifiers, or no task
    name is given and the train file or the validation file is missing, or
    no task name is given and the extension of a given file is neither
    [csv] nor [json]; a known task name (in any case), or two files with
    supported extensions and no task name, pass. *)
Theorem post_init_fails_exactly (args : GlueDataTrainingArguments) :
  (raises (post_init args) ↔
     (∃ t, task_name args = Some t ∧ lower t ∉ glue_tasks) ∨
     (task_name args = None ∧
        (train_file args = None ∨ validation_file args = None)) ∨
     (task_name args = None ∧
        ∃ file,
          (train_file args = Some file ∨ validation_file args = Some file) ∧
          ¬ supported_file file)) ∧
  (∀ t, task_name args = Some t → lower t ∈ glue_tasks →
        post_init args = Ok (set_task_name args (lower t))) ∧
  (∀ train validation,
      task_name args = None → train_file args = Some train →
      validation_file args = Some validation →
      supported_file train → supported_file validation →
      post_init args = Ok args).
Proof.
  split; [|split].
  - destruct (task_name args) as [t|] eqn:Ht.
    + unfold post_init. rewrite Ht, task_names_glue_tasks.
      case_bool_decide as Hin; simpl.
      * split; [done|].
        intros [(t' & ? & ?)|[[? _]|[? _]]]; by simplify_eq.
      * split; [|done]. intros _. left. eauto.
    + destruct (train_file args) as [train|] eqn:Htr;
        [destruct (validation_file args) as [validation|] eqn:Hv|].
      * destruct (post_init_files args train validation Ht Htr Hv) as [_ Hbad].
        rewrite Hbad. split.
        -- intros [Hno|Hno]; right; right; (split; [done|]); eauto.
        -- intros [(t' & ? & ?)|[[_ [?|?]]|[_ (file & Hfile & Hno)]]];
             [done..|].
           destruct Hfile; simplify_eq; auto.
      * unfold post_init. rewrite Ht, Htr, Hv. split; [|done]. eauto.
      * unfold post_init. rewrite Ht, Htr. split; [|done]. eauto.
  - intros t Ht Hin. unfold post_init. rewrite Ht, task_names_glue_tasks.
    by rewrite bool_decide_eq_true_2.
  - intros train validation Ht Htr Hv H1 H2.
    by apply (post_init_files args train validation).
Qed.

Lemma post_init_fails_exactly_witness :
  post_init (Sample.args (Some "MRPC") None None)
  = Ok (Sample.args (Some "mrpc") None None) ∧
  post_init (Sample.args None (Some "data/train.v2.csv") (Some "dev.json"))
  = Ok (Sample.args None (Some "data/train.v2.csv") (Some "dev.json")).
Proof.
  split.
  - destruct (post_init_fails_exactly (Sample.args (Some "MRPC") None None))
      as (_ & Htask & _).
    apply (Htask "MRPC"); [reflexivity|].
    vm_compute. do 2 right. left.
  - destruct (post_init_fails_exactly
                (Sample.args None (Some "data/train.v2.csv") (Some "dev.json")))
      as (_ & _ & Hfiles).
    apply (Hfiles "data/train.v2.csv" "dev.json"); try reflexivity.
    + exists "csv". split; [|by left]. split; [done|]. right.
      by exists "data/train.v2".
    + exists "json". split; [|by right]. split; [done|]. right.
      by exists "dev".
Defined.

(** C9: the task table has the nine GLUE identifiers as its keys, and
    resolving each of them yields its pair of field names: the second field
    is absent for [cola] and [sst2]; any other name has no entry. *)
Theorem task_resolution (datasets : DatasetDict) :
  task_to_keys.*1 = glue_tasks ∧
  sentence_keys (Some "cola") datasets = Ok ("sentence", None) ∧
  sentence_keys (Some "mnli") datasets = Ok ("premise", Some "hypothesis") ∧
  sentence_keys (Some "mrpc") datasets = Ok ("sentence1", Some "sentence2") ∧
  sentence_keys (Some "qnli") datasets = Ok ("question", Some "sentence") ∧
  sentence_keys (Some "qqp") datasets = Ok ("question1", Some "question2") ∧
  sentence_keys (Some "rte") datasets = Ok ("sentence1", Some "sentence2") ∧
  sentence_keys (Some "sst2") datasets = Ok ("sentence", None) ∧
  sentence_keys (Some "stsb") datasets = Ok ("sentence1", Some "sentence2") ∧
  sentence_keys (Some "wnli") datasets = Ok ("sentence1", Some "sentence2") ∧
  ∀ t, t ∉ glue_tasks → sentence_keys (Some t) datasets = Raise KeyError.
Proof.
  repeat (split; [reflexivity|]).
  intros t Ht. unfold sentence_keys, task_keys.
  assert (∀ (d : list (string * (string * option string))),
            t ∉ d.*1 → assoc t d = None) as Hassoc.
  { induction d as [|[k v] d IH]; simpl; [done|].
    intros Hd. apply not_elem_of_cons in Hd as [Hk Hd].
    apply String.eqb_neq in Hk as ->. auto. }
  by rewrite Hassoc.
Qed.

Lemma task_resolution_witness :
  sentence_keys (Some "glue") Sample.mrpc = Raise KeyError.
Proof.
  destruct (task_resolution Sample.mrpc) as (_&_&_&_&_&_&_&_&_&_& Hother).
  apply Hother. vm_compute.
  intros H. repeat (apply elem_of_cons in H as [H|H]; [discriminate H|]).
  by apply elem_of_nil in H.
Defined.

Lemma io_assert_false {A} (k : unit → io A) trace :
  (io_assert false ≫= k) trace = (Raise (AssertionError EmptyString), trace).
Proof. reflexivity. Qed.

(** C10: for every source path and optimize mode, [evaluate_model] raises
    [AssertionError] at its first statement: no parameters are run, no
    file is opened and no result is returned, whatever the collaborators
    would do. *)
Theorem evaluate_model_always_fails
    (resolve : string → string)
    (run_from_dict : list (string * param) → result unit)
    (json : Type) (json_load : string → result json)
    (src_path optimize_mode : string) (trace : list event) :
  evaluate_model resolve run_from_dict json json_load src_path optimize_mode
                 trace
  = (Raise (AssertionError EmptyString), trace).
Proof. unfold evaluate_model. apply io_assert_false. Qed.

(** ** Distinct elements and sorting *)

Section unique_facts.
Context {A : Type} `{Countable A}.
Implicit Types l : list A.

Lemma elem_of_unique l x : x ∈ unique l ↔ x ∈ l.
Proof.
  induction l as [|y l IH]; simpl; [done|].
  rewrite !elem_of_cons, list_elem_of_filter, IH.
  destruct (decide (x = y)); tauto.
Qed.

Lemma NoDup_unique l : NoDup (unique l).
Proof.
  induction l as [|y l IH]; simpl; [constructor|].
  apply NoDup_cons. split; [|by apply NoDup_filter].
  rewrite list_elem_of_filter. tauto.
Qed.
End unique_facts.

Lemma cells_sorted_perm c : cells (sorted c) ≡ₚ cells c.
Proof. destruct c; simpl; by rewrite merge_sort_Permutation. Qed.

Lemma cells_sorted_Sorted c : Sorted py_le (cells (sorted c)).
Proof.
  destruct c as [l|l]; simpl.
  - apply (Sorted_fmap _ Qcle); [done|]. apply (Sorted_merge_sort _).
  - apply (Sorted_fmap _ String.le); [done|]. apply (Sorted_merge_sort _).
Qed.

Lemma elem_of_cells_unique c v : v ∈ cells (unique_column c) ↔ v ∈ cells c.
Proof.
  destruct c as [l|l]; simpl; rewrite !list_elem_of_fmap;
    by setoid_rewrite elem_of_unique.
Qed.

Lemma NoDup_cells_unique c : NoDup (cells (unique_column c)).
Proof.
  destruct c as [l|l]; simpl; apply (NoDup_fmap_2 _), NoDup_unique.
Qed.

Lemma len_unique c :
  len (unique_column c) = size (list_to_set (cells c) : gset pyval).
Proof.
  unfold len.
  rewrite <-(size_list_to_set (C:=gset pyval) (cells (unique_column c)))
    by apply NoDup_cells_unique.
  f_equal. apply set_eq. intros x.
  by rewrite !elem_of_list_to_set, elem_of_cells_unique.
Qed.

Lemma len_sorted c : len (sorted c) = len c.
Proof. unfold len. by rewrite cells_sorted_perm. Qed.

(** The label list inferred from a column: sorted, duplicate-free, with the
    values of the column, as many as the column has distinct values. *)
Lemma sorted_unique_spec col :
  let label_list := sorted (unique_column col) in
  Sorted py_le (cells label_list) ∧
  NoDup (cells label_list) ∧
  (∀ v, v ∈ cells label_list ↔ v ∈ cells col) ∧
  len label_list = size (list_to_set (cells col) : gset pyval).
Proof.
  simpl. split; [apply cells_sorted_Sorted|]. split; [|split].
  - rewrite cells_sorted_perm. apply NoDup_cells_unique.
  - intros v. by rewrite cells_sorted_perm, elem_of_cells_unique.
  - by rewrite len_sorted, len_unique.
Qed.

(** ** Label-space derivation *)

(** One step of a pure computation: the binds on a known outcome are
    reduced and nothing else is unfolded. *)
Ltac res_step :=
  cbn [mbind result_bind Res.bind Res.of_option mret result_ret].

Lemma derive_labels_regression task datasets :
  (∃ label_list num_labels,
      derive_labels task datasets = Ok (true, label_list, num_labels)) ↔
  regression_run task datasets.
Proof.
  unfold regression_run, float_labels, derive_labels, getitem.
  destruct task as [t|].
  - case_bool_decide as Ht; cbn [negb].
    + subst t. split; [by left|by eexists _, _].
    + split.
      * intros (ll & n & Heq). revert Heq.
        destruct (datasets !! "train") as [train|]; res_step; [|done].
        destruct (features train !! "label") as [feature|]; res_step; [|done].
        by destruct (Feature_names feature).
      * intros [[=]|[[=] _]]. done.
  - split.
    + intros (ll & n & Heq). right. split; [done|]. revert Heq.
      destruct (datasets !! "train") as [train|]; res_step; [|done].
      destruct (features train !! "label") as [feature|] eqn:Hfeature;
        res_step; [|done].
      case_bool_decide; [by eexists _, _|].
      by destruct (Dataset_unique train "label").
    + intros [[=]|[_ (train & feature & Htrain & Hfeature & Hf)]].
      rewrite Htrain. res_step. rewrite Hfeature. res_step.
      rewrite bool_decide_eq_true_2 by done. by eexists _, _.
Qed.

Lemma derive_labels_regression_run task datasets :
  regression_run task datasets →
  derive_labels task datasets = Ok (true, None, 1%nat).
Proof.
  unfold regression_run, float_labels, derive_labels, getitem.
  intros [->|[-> (train & feature & Htrain & Hfeature & Hf)]]; [done|].
  rewrite Htrain. res_step. rewrite Hfeature. res_step.
  by rewrite bool_decide_eq_true_2.
Qed.

(** ** Comprehensions and dicts *)

Lemma traverse_Ok {A B} (f : A → result B) l ys :
  Res.traverse f l = Ok ys ↔ Forall2 (λ x y, f x = Ok y) l ys.
Proof.
  revert ys. induction l as [|x l IH]; intros ys; simpl.
  - split; [by intros [= <-]; constructor|by inversion 1].
  - split.
    + destruct (f x) as [y|] eqn:Hx; simpl; [|done].
      destruct (Res.traverse f l) as [ys'|]; simpl; [|done].
      intros [= <-]. constructor; [done|]. by apply IH.
    + inversion 1 as [|? y ? ys' Hx Hl]; subst. rewrite Hx. simpl.
      apply IH in Hl as ->. done.
Qed.

Lemma traverse_Raise {A B} (f : A → result B) l x e :
  x ∈ l → (∀ y, y ∈ l → f y = Raise e ∨ ∃ b, f y = Ok b) → f x = Raise e →
  Res.traverse f l = Raise e.
Proof.
  induction l as [|y l IH]; [by intros ?%elem_of_nil|].
  intros [->|Hx]%elem_of_cons Hall Hfx; simpl.
  - by rewrite Hfx.
  - destruct (Hall y) as [->|[b ->]]; [by left|done|]. simpl.
    rewrite IH; [done..| |done]. intros z Hz. apply Hall. by right.
Qed.

Section dict_of_facts.
Context {K V : Type} `{Countable K}.
Implicit Types items : list (K * V).

Lemma dict_of_list_to_map items :
  dict_of items = list_to_map (reverse items).
Proof.
  unfold dict_of. induction items as [|[k v] items IH] using rev_ind; [done|].
  rewrite fold_left_app, reverse_snoc. simpl. by rewrite IH.
Qed.


Lemma lookup_dict_of items k v :
  NoDup items.*1 → dict_of items !! k = Some v ↔ (k, v) ∈ items.
Proof.
  intros Hnd. rewrite dict_of_list_to_map, <-elem_of_list_to_map.
  - by rewrite elem_of_reverse.
  - by rewrite fmap_reverse, reverse_Permutation.
Qed.
End dict_of_facts.

(** ** Method bodies *)

Section keeps_facts.
Context {B : Type} (f : GlueXP → B).

Lemma keeps_ret {A} (a : A) : keeps f (mret a).
Proof. done. Qed.

Lemma keeps_bind {A C} (m : method A) (k : A → method C) :
  keeps f m → (∀ a, keeps f (k a)) → keeps f (m ≫= k).
Proof.
  intros Hm Hk self. unfold mbind, method_bind.
  specialize (Hm self). destruct (m self) as [[a|e] self']; simpl in *.
  - by rewrite Hk.
  - done.
Qed.

Lemma keeps_eval {A} (r : result A) : keeps f (Self.eval r).
Proof. done. Qed.

Lemma keeps_get {A} (g : GlueXP → A) : keeps f (Self.get g).
Proof. done. Qed.

Lemma keeps_getattr {A} name (g : GlueXP → option A) :
  keeps f (Self.getattr name g).
Proof. done. Qed.

Lemma keeps_read {A} (g : GlueXP → result A) :
  keeps f (λ self, (g self, self)).
Proof. done. Qed.

Lemma keeps_for_each {A} (l : list A) (body : A → method unit) :
  (∀ x, keeps f (body x)) → keeps f (Self.for_each l body).
Proof.
  intros Hbody. induction l as [|x l IH]; simpl; [done|].
  apply keeps_bind; auto.
Qed.
End keeps_facts.

Ltac keeps_step :=
  first
    [ apply keeps_ret | apply keeps_eval | apply keeps_get
    | apply keeps_getattr | apply keeps_read
    | apply keeps_for_each; intros
    | apply keeps_bind; [|intros] ].

Lemma bind_Ok {A C} (m : method A) (k : A → method C) self a self' :
  m self = (Ok a, self') → (m ≫= k) self = k a self'.
Proof. unfold mbind, method_bind. by intros ->. Qed.

Lemma bind_Raise {A C} (m : method A) (k : A → method C) self e self' :
  m self = (Raise e, self') → (m ≫= k) self = (Raise e, self').
Proof. unfold mbind, method_bind. by intros ->. Qed.

(** One statement of a method body whose outcome is known. *)
Ltac run_step :=
  erewrite bind_Ok by reflexivity;
  cbn [data_args self_datasets self_is_regression self_label_list
       self_num_labels self_sentence1_key self_sentence2_key
       self_label_to_id logged].

Ltac keeps_auto :=
  repeat first
    [ keeps_step
    | match goal with
      | |- keeps _ (match ?p with _ => _ end) => destruct p
      | |- keeps _ (if ?b then _ else _) => destruct b
      | H : unlogged ?f |- keeps ?f (Self.log _) => apply H
      end
    | by intros ? ].

Lemma derive_labels_inferred datasets train feature col :
  datasets !! "train" = Some train →
  features train !! "label" = Some feature →
  Feature_dtype feature ∉ ["float32"; "float64"] →
  assoc "label" (data train) = Some col →
  derive_labels None datasets
  = Ok (false, Some (sorted (unique_column col)),
        len (sorted (unique_column col))).
Proof.
  intros Htrain Hfeature Hdtype Hcol. unfold derive_labels, getitem.
  rewrite Htrain. res_step. rewrite Hfeature. res_step.
  rewrite bool_decide_eq_false_2 by done.
  unfold Dataset_unique. by rewrite Hcol.
Qed.

Lemma derive_labels_declared t datasets train names :
  t ≠ "stsb" →
  datasets !! "train" = Some train →
  features train !! "label" = Some (ClassLabel names) →
  derive_labels (Some t) datasets
  = Ok (false, Some (StrColumn names), length names).
Proof.
  intros Ht Htrain Hfeature. unfold derive_labels, getitem.
  rewrite bool_decide_eq_false_2 by done. cbn [negb].
  rewrite Htrain. res_step. rewrite Hfeature. res_step.
  unfold len. simpl. by rewrite length_fmap.
Qed.

Lemma dense_table_spec label_list :
  NoDup (cells label_list) →
  is_dense_index_of label_list (dense_table label_list).
Proof.
  intros Hnd v z. unfold dense_table.
  assert ((imap (λ (i : nat) (v : pyval), (v, Z.of_nat i))
                (cells label_list)).*1 = cells label_list) as Hkeys.
  { apply list_eq. intros i.
    rewrite list_lookup_fmap, list_lookup_imap.
    by destruct (cells label_list !! i). }
  rewrite lookup_dict_of by by rewrite Hkeys.
  rewrite list_elem_of_lookup. setoid_rewrite list_lookup_imap. split.
  - intros (i & Hi). exists i.
    destruct (cells label_list !! i); by simplify_eq/=.
  - intros (i & -> & Hi). exists i. by rewrite Hi.
Qed.

Section create_datasets_facts.
Context (load_dataset : string → load_args → result DatasetDict)
        (create_config : GlueXP → result PretrainedConfig)
        (default_label2id : nat → list (string * Z))
        (tokenizer :
           list column → padding_t → option Z → bool → result BatchEncoding)
        (Mapped : Type)
        (DatasetDict_map :
           (Batch → result BatchEncoding) → bool → bool → DatasetDict →
           result (gmap string Mapped))
        (Mapped_len : Mapped → nat)
        (Mapped_row : Mapped → nat → result unit)
        (random_sample : nat → nat → result (list nat)).

Local Abbreviation xp_create_datasets :=
  (create_datasets load_dataset create_config default_label2id tokenizer
                   Mapped DatasetDict_map Mapped_len Mapped_row
                   random_sample).
Local Abbreviation xp_resolve_label_to_id :=
  (resolve_label_to_id create_config default_label2id).
Local Abbreviation xp_map_and_sample :=
  (map_and_sample Mapped DatasetDict_map Mapped_len Mapped_row
                  random_sample).

(** A regression run stops at [self.label_list = label_list]. *)
Lemma create_datasets_regression (self : GlueXP) datasets :
  load load_dataset (data_args self) = Ok datasets →
  regression_run (task_name (data_args self)) datasets →
  xp_create_datasets self
  = (Raise (UnboundLocalError "label_list"), at_label_list self datasets).
Proof.
  intros Hload Hreg%derive_labels_regression_run.
  unfold create_datasets, mbind, method_bind, Self.get, Self.eval.
  rewrite Hload. simpl. rewrite Hreg. reflexivity.
Qed.

Section keeps.
Context {B : Type} (f : GlueXP → B) (Hf : unlogged f).

Lemma keeps_remap_block config label_list num_labels :
  keeps f (remap_block config label_list num_labels).
Proof. unfold remap_block. keeps_auto. Qed.

Lemma keeps_resolve_label_to_id task label_list num_labels :
  keeps f (xp_resolve_label_to_id task label_list num_labels).
Proof.
  unfold resolve_label_to_id.
  keeps_auto; apply keeps_remap_block.
Qed.

Lemma keeps_map_and_sample args datasets preprocess :
  keeps f (xp_map_and_sample args datasets preprocess).
Proof. unfold map_and_sample. keeps_auto. Qed.
End keeps.


(** A classification run assigns the label attributes, and nothing
    after that touches them. *)
Lemma create_datasets_labels (self : GlueXP) datasets label_list n
    {B} (f : GlueXP → B) :
  load load_dataset (data_args self) = Ok datasets →
  derive_labels (task_name (data_args self)) datasets
  = Ok (false, Some label_list, n) →
  unlogged f →
  (∀ k1 k2, keeps f (Self.set_sentence_keys k1 k2)) →
  (∀ table, keeps f (Self.set_label_to_id table)) →
  f (xp_create_datasets self).2 = f (with_labels self datasets label_list n).
Proof.
  intros Hload Hderive Hlog Hkeys Htable.
  destruct self as [args ds ir ll nl k1 k2 tbl lg]; cbn in Hload, Hderive.
  unfold create_datasets, with_labels.
  run_step. rewrite Hload. do 2 run_step. rewrite Hderive.
  run_step. cbn beta iota. do 4 run_step.
  match goal with
  | |- f (?m ?s).2 = _ =>
      transitivity (f s); [generalize s; change (keeps f m)|reflexivity]
  end.
  keeps_auto; auto using keeps_resolve_label_to_id, keeps_map_and_sample.
Qed.


(** C3: in every run in which [is_regression] is derived as true, that
    is with the task name ["stsb"], or with no task name and a label
    column of dtype ["float32"] or ["float64"], [create_datasets] raises
    [UnboundLocalError] for [label_list] at [self.label_list = label_list]:
    [self.is_regression] has been assigned, [label_list] is unassigned,
    and nothing after that statement runs. *)
Theorem regression_run_raises_unbound_local (self : GlueXP) datasets :
  load load_dataset (data_args self) = Ok datasets →
  ((∃ label_list num_labels,
       derive_labels (task_name (data_args self)) datasets
       = Ok (true, label_list, num_labels)) ↔
   regression_run (task_name (data_args self)) datasets) ∧
  (regression_run (task_name (data_args self)) datasets →
   derive_labels (task_name (data_args self)) datasets
   = Ok (true, None, 1%nat) ∧
   xp_create_datasets self
   = (Raise (UnboundLocalError "label_list"), at_label_list self datasets)).
Proof.
  intros Hload. split; [apply derive_labels_regression|].
  intros Hreg. split; [by apply derive_labels_regression_run|].
  by apply create_datasets_regression.
Qed.

(** C2: with a task name, [is_regression] is derived as true exactly for
    ["stsb"], with [num_labels = 1]; for any other task the label list is
    the list of class names the dataset declares and [num_labels] is its
    length.  At the failing input, the task name ["stsb"], [create_datasets]
    then raises [UnboundLocalError] at [self.label_list = label_list],
    before [self.num_labels] is assigned: it does not complete. *)
Theorem task_label_space_and_stsb_run (self : GlueXP) datasets :
  (∀ t ds,
      (∃ label_list num_labels,
          derive_labels (Some t) ds = Ok (true, label_list, num_labels)) ↔
      t = "stsb") ∧
  (∀ t ds train names,
      t ≠ "stsb" →
      ds !! "train" = Some train →
      features train !! "label" = Some (ClassLabel names) →
      derive_labels (Some t) ds
      = Ok (false, Some (StrColumn names), length names)) ∧
  (task_name (data_args self) = Some "stsb" →
   load_dataset "glue" (Config_name "stsb") = Ok datasets →
   derive_labels (Some "stsb") datasets = Ok (true, None, 1%nat) ∧
   xp_create_datasets self
   = (Raise (UnboundLocalError "label_list"), at_label_list self datasets) ∧
   self_num_labels (xp_create_datasets self).2 = self_num_labels self).
Proof.
  split; [|split].
  - intros t ds. rewrite derive_labels_regression. unfold regression_run.
    split; [by intros [[= ->]|[[=] _]]|by intros ->; left].
  - intros t ds train names. apply derive_labels_declared.
  - intros Htask Hload. split; [done|].
    assert (xp_create_datasets self
            = (Raise (UnboundLocalError "label_list"),
               at_label_list self datasets)) as ->; [|done].
    apply create_datasets_regression.
    + unfold load. by rewrite Htask.
    + left. done.
Qed.

(** C4: with no task name, [is_regression] is derived as true exactly
    when the label column's dtype is ["float32"] or ["float64"], and
    [num_labels] is then 1; otherwise the label list is the sorted list
    of the distinct values of the training split's label column,
    [num_labels] is the number N of these values, and [create_datasets]
    assigns [is_regression = False], that label list and
    [num_labels = N]. *)
Theorem label_space_without_task (self : GlueXP) datasets train feature :
  task_name (data_args self) = None →
  load load_dataset (data_args self) = Ok datasets →
  datasets !! "train" = Some train →
  features train !! "label" = Some feature →
  (Feature_dtype feature ∈ ["float32"; "float64"] →
     derive_labels None datasets = Ok (true, None, 1%nat) ∧
     self_is_regression (xp_create_datasets self).2 = Some true) ∧
  (Feature_dtype feature ∉ ["float32"; "float64"] →
     ∀ col, assoc "label" (data train) = Some col →
     let label_list := sorted (unique_column col) in
     let N := size (list_to_set (cells col) : gset pyval) in
     derive_labels None datasets = Ok (false, Some label_list, N) ∧
     Sorted py_le (cells label_list) ∧
     NoDup (cells label_list) ∧
     (∀ v, v ∈ cells label_list ↔ v ∈ cells col) ∧
     len label_list = N ∧
     self_is_regression (xp_create_datasets self).2 = Some false ∧
     self_label_list (xp_create_datasets self).2 = Some label_list ∧
     self_num_labels (xp_create_datasets self).2 = Some N).
Proof.
  intros Htask Hload Htrain Hfeature. split.
  - intros Hfloat.
    assert (regression_run (task_name (data_args self)) datasets) as Hreg.
    { right. split; [done|]. by exists train, feature. }
    rewrite (create_datasets_regression self datasets Hload Hreg).
    split; [|done]. apply derive_labels_regression_run. by rewrite <-Htask.
  - intros Hdtype col Hcol label_list N.
    destruct (sorted_unique_spec col) as (Hsorted & Hnodup & Helem & Hlen).
    fold label_list in Hsorted, Hnodup, Helem, Hlen. fold N in Hlen.
    pose proof (derive_labels_inferred _ _ _ _ Htrain Hfeature Hdtype Hcol)
      as Hderive.
    fold label_list in Hderive. rewrite Hlen in Hderive.
    do 5 (split; [done|]).
    rewrite <-Htask in Hderive.
    rewrite !(create_datasets_labels self datasets label_list N)
      by (done || by intros ?; intros ?).
    done.
Qed.

End create_datasets_facts.

(** ** The remap branch *)





Section remap_facts.
Context (create_config : GlueXP → result PretrainedConfig)
        (default_label2id : nat → list (string * Z)).

Local Abbreviation xp_resolve_label_to_id :=
  (resolve_label_to_id create_config default_label2id).

End remap_facts.


Lemma regression_run_raises_unbound_local_witness :
  Sample.run Sample.stsb Sample.mrpc_config
             (new_xp (Sample.args (Some "stsb") None None))
  = (Raise (UnboundLocalError "label_list"),
     at_label_list (new_xp (Sample.args (Some "stsb") None None)) Sample.stsb)
  ∧
  Sample.run Sample.scores Sample.mrpc_config
             (new_xp (Sample.args None (Some "train.csv") (Some "dev.csv")))
  = (Raise (UnboundLocalError "label_list"),
     at_label_list
       (new_xp (Sample.args None (Some "train.csv") (Some "dev.csv")))
       Sample.scores).
Proof.
  split.
  - destruct (regression_run_raises_unbound_local
                (λ _ _, Ok Sample.stsb) (λ _, Ok Sample.mrpc_config)
                Sample.default_label2id Sample.tokenizer nat
                Sample.DatasetDict_map Sample.Mapped_len Sample.Mapped_row
                Sample.random_sample
                (new_xp (Sample.args (Some "stsb") None None)) Sample.stsb)
      as [_ Hraise]; [reflexivity|].
    destruct Hraise as [_ Hraise]; [by left|]. exact Hraise.
  - destruct (regression_run_raises_unbound_local
                (λ _ _, Ok Sample.scores) (λ _, Ok Sample.mrpc_config)
                Sample.default_label2id Sample.tokenizer nat
                Sample.DatasetDict_map Sample.Mapped_len Sample.Mapped_row
                Sample.random_sample
                (new_xp (Sample.args None (Some "train.csv") (Some "dev.csv")))
                Sample.scores)
      as [_ Hraise]; [reflexivity|].
    destruct Hraise as [_ Hraise]; [|exact Hraise].
    right. split; [reflexivity|].
    exists Sample.scores_split, (Value "float64").
    split; [reflexivity|]. split; [reflexivity|]. right. left.
Defined.

Lemma task_label_space_and_stsb_run_witness :
  Sample.run Sample.stsb (Sample.default_config 1)
             (new_xp (Sample.args (Some "stsb") None None))
  = (Raise (UnboundLocalError "label_list"),
     at_label_list (new_xp (Sample.args (Some "stsb") None None)) Sample.stsb)
  ∧
  derive_labels (Some "mrpc") Sample.mrpc
  = Ok (false, Some (StrColumn ["not_equivalent"; "equivalent"]), 2%nat).
Proof.
  destruct (task_label_space_and_stsb_run
              (λ _ _, Ok Sample.stsb) (λ _, Ok (Sample.default_config 1))
              Sample.default_label2id Sample.tokenizer nat
              Sample.DatasetDict_map Sample.Mapped_len Sample.Mapped_row
              Sample.random_sample
              (new_xp (Sample.args (Some "stsb") None None)) Sample.stsb)
    as (_ & Hdeclared & Hstsb).
  split.
  - destruct Hstsb as (_ & Hraise & _); [reflexivity..|]. exact Hraise.
  - apply (Hdeclared "mrpc" Sample.mrpc
                     (Sample.pair_split ["not_equivalent"; "equivalent"]));
      [discriminate|reflexivity..].
Defined.

Lemma label_space_without_task_witness :
  self_is_regression
    (Sample.run Sample.reviews (Sample.default_config 2)
       (new_xp (Sample.args None (Some "train.csv") (Some "dev.csv")))).2
  = Some false ∧
  self_num_labels
    (Sample.run Sample.reviews (Sample.default_config 2)
       (new_xp (Sample.args None (Some "train.csv") (Some "dev.csv")))).2
  = Some 2%nat.
Proof.
  assert (Feature_dtype (Value "string") ∉ ["float32"; "float64"]) as Hdtype.
  { intros Hin. repeat (apply elem_of_cons in Hin as [[=]|Hin]).
    by apply elem_of_nil in Hin. }
  pose proof (proj2 (label_space_without_task
              (λ _ _, Ok Sample.reviews)
              (λ _, Ok (Sample.default_config 2))
              Sample.default_label2id Sample.tokenizer nat
              Sample.DatasetDict_map Sample.Mapped_len Sample.Mapped_row
              Sample.random_sample
              (new_xp (Sample.args None (Some "train.csv") (Some "dev.csv")))
              Sample.reviews Sample.reviews_split (Value "string")
              eq_refl eq_refl eq_refl eq_refl)
          Hdtype (StrColumn ["pos"; "neg"; "pos"]) eq_refl)
    as (_ & _ & _ & _ & _ & Hregression & _ & Hnum).
  split; [exact Hregression|]. etransitivity; [exact Hnum|].
  vm_compute. reflexivity.
Defined.







(** ** The preprocessing function *)

Lemma traverse_getitem_Raise {K V} `{Countable K} (d : gmap K V) l x :
  x ∈ l → d !! x = None → Res.traverse (getitem d) l = Raise KeyError.
Proof.
  intros Hx Hnone. apply traverse_Raise with x; [done| |].
  - intros y _. unfold getitem. destruct (d !! y); eauto.
  - unfold getitem. by rewrite Hnone.
Qed.



(** ** The metric fallback *)








Section compute_metrics_facts.
Context (metric_compute :
           string → ndarray → list Qc → result (gmap string pyfloat)).

Local Abbreviation xp_compute_metrics := (compute_metrics metric_compute).

End compute_metrics_facts.


(** * Further properties *)

(** ** Validation and loading *)

Lemma lower_ascii_idemp c : lower_ascii (lower_ascii c) = lower_ascii c.
Proof. by destruct c as [[] [] [] [] [] [] [] []]. Qed.

Lemma lower_idemp s : lower (lower s) = lower s.
Proof.
  induction s as [|c s IH]; [done|]. simpl. by rewrite lower_ascii_idemp, IH.
Qed.

Lemma append_cons c s t : String c s +:+ t = String c (s +:+ t).
Proof. reflexivity. Qed.

Lemma length_append s t :
  String.length (s +:+ t) = (String.length s + String.length t)%nat.
Proof.
  induction s as [|c s IH]; [done|]. rewrite append_cons. simpl. by rewrite IH.
Qed.

Lemma substring_all s : String.substring 0 (String.length s) s = s.
Proof. induction s as [|c s IH]; [done|]. simpl. by rewrite IH. Qed.

Lemma substring_append stem s :
  String.substring (String.length stem) (String.length s) (stem +:+ s) = s.
Proof.
  induction stem as [|c stem IH]; [apply substring_all|].
  rewrite append_cons. simpl. apply IH.
Qed.

Lemma substring_split n s :
  (n ≤ String.length s)%nat →
  s = String.substring 0 n s
      +:+ String.substring n (String.length s - n) s.
Proof.
  revert n. induction s as [|c s IH]; intros [|n] Hn; simpl in *;
    try done; try lia.
  - by rewrite substring_all.
  - rewrite append_cons. f_equal. apply IH. lia.
Qed.

(** [s.endswith(suffix)] holds exactly when [s] is something followed by
    [suffix]. *)
Lemma endswith_spec s suffix :
  endswith s suffix = true ↔ ∃ stem, s = stem +:+ suffix.
Proof.
  unfold endswith. rewrite andb_true_iff, Nat.leb_le, String.eqb_eq. split.
  - intros [Hlen Hsub]. remember (String.length suffix) as k eqn:Hk.
    exists (String.substring 0 (String.length s - k) s). rewrite <-Hsub.
    etransitivity; [apply (substring_split (String.length s - k) s); lia|].
    do 2 f_equal. lia.
  - intros [stem ->]. rewrite length_append. split; [lia|].
    replace (String.length stem + String.length suffix
             - String.length suffix)%nat
      with (String.length stem) by lia.
    apply substring_append.
Qed.

Lemma glue_tasks_lower t : t ∈ glue_tasks → lower t = t.
Proof.
  intros Ht. unfold glue_tasks in Ht.
  repeat (apply elem_of_cons in Ht as [->|Ht]; [done|]).
  by apply elem_of_nil in Ht.
Qed.

Lemma post_init_task (args args' : GlueDataTrainingArguments) t :
  post_init args = Ok args' → task_name args' = Some t → t ∈ glue_tasks.
Proof.
  unfold post_init. destruct (task_name args) as [t'|] eqn:Ht.
  - rewrite task_names_glue_tasks. case_bool_decide as Hin; [|done].
    by intros [= <-] [= <-].
  - destruct (train_file args) as [train|]; [|done].
    destruct (validation_file args) as [validation|]; [|done].
    destruct (last_item (split_dot train)) as [e1|]; [|done].
    res_step. destruct (is_csv_or_json e1); [|done]. res_step.
    destruct (last_item (split_dot validation)) as [e2|]; [|done].
    res_step. destruct (is_csv_or_json e2); [|done]. res_step.
    intros [= <-]. by rewrite Ht.
Qed.

(** X1: what [__post_init__] accepts it leaves valid: the task name, if
    any, is lower-cased to one of the nine GLUE identifiers, every other
    field is as it was, and validating the result again accepts it
    unchanged. *)
Theorem post_init_valid_and_stable (args args' : GlueDataTrainingArguments) :
  post_init args = Ok args' →
  task_name args' = lower <$> task_name args ∧
  (∀ t, task_name args' = Some t → t ∈ glue_tasks) ∧
  max_seq_length args' = max_seq_length args ∧
  train_file args' = train_file args ∧
  validation_file args' = validation_file args ∧
  pad_to_max_length args' = pad_to_max_length args ∧
  overwrite_cache args' = overwrite_cache args ∧
  post_init args' = Ok args'.
Proof.
  intros Hok. destruct (task_name args) as [t|] eqn:Ht.
  - unfold post_init in Hok. rewrite Ht, task_names_glue_tasks in Hok.
    case_bool_decide as Hin; [|done]. injection Hok as <-.
    split; [done|]. split; [by intros ? [= <-]|]. do 5 (split; [done|]).
    unfold post_init. cbn [task_name set_task_name].
    rewrite lower_idemp, task_names_glue_tasks.
    by rewrite bool_decide_eq_true_2.
  - assert (args' = args) as Heq.
    { unfold post_init in Hok. rewrite Ht in Hok.
      destruct (train_file args) as [train|]; [|done].
      destruct (validation_file args) as [validation|]; [|done].
      destruct (last_item (split_dot train)) as [e1|]; [|done].
      revert Hok. res_step. destruct (is_csv_or_json e1); [|done]. res_step.
      destruct (last_item (split_dot validation)) as [e2|]; [|done].
      res_step. destruct (is_csv_or_json e2); [|done]. res_step.
      by intros [= <-]. }
    subst args'. rewrite Ht. split; [done|]. split; [done|].
    by do 5 (split; [done|]).
Qed.

Lemma post_init_valid_and_stable_witness :
  post_init (Sample.args (Some "mrpc") None None)
  = Ok (Sample.args (Some "mrpc") None None).
Proof.
  apply (post_init_valid_and_stable (Sample.args (Some "MrPc") None None)).
  reflexivity.
Defined.

Lemma extension_csv_endswith train :
  endswith train ".csv" = true ↔ extension_of train "csv" ∧ train ≠ "csv".
Proof.
  rewrite endswith_spec. unfold extension_of. split.
  - intros [stem ->]. split.
    + split; [done|]. right. by exists stem.
    + intros Heq. apply (f_equal String.length) in Heq.
      rewrite length_append in Heq. simpl in Heq. lia.
  - intros [[_ [->|[stem ->]]] Hne]; [done|]. by exists stem.
Qed.

(** X2: arguments that [__post_init__] accepts without a task name carry
    both files, each with a supported extension, and [create_datasets]
    loads both with one loader chosen from the train file alone: the
    [csv] loader when its extension is [csv] (and it is not the bare name
    [csv]), the [json] loader otherwise, whatever the extension of the
    validation file. *)
Theorem validated_files_loader
    (load_dataset : string → load_args → result DatasetDict)
    (args args' : GlueDataTrainingArguments) :
  post_init args = Ok args' →
  task_name args = None →
  ∃ train validation,
    train_file args' = Some train ∧
    validation_file args' = Some validation ∧
    supported_file train ∧ supported_file validation ∧
    load load_dataset args'
    = load_dataset (if endswith train ".csv" then "csv" else "json")
                   (Data_files [("train", Some train);
                                ("validation", Some validation)]) ∧
    (endswith train ".csv" = true ↔
     extension_of train "csv" ∧ train ≠ "csv").
Proof.
  intros Hok Ht. unfold post_init in Hok. rewrite Ht in Hok.
  destruct (train_file args) as [train|] eqn:Htrain; [|done].
  destruct (validation_file args) as [validation|] eqn:Hvalidation; [|done].
  destruct (last_item (split_dot train)) as [e1|] eqn:He1; [|done].
  revert Hok. res_step. destruct (is_csv_or_json e1) eqn:Hs1; [|done].
  res_step.
  destruct (last_item (split_dot validation)) as [e2|] eqn:He2; [|done].
  res_step. destruct (is_csv_or_json e2) eqn:Hs2; [|done]. res_step.
  intros [= <-]. exists train, validation.
  split; [done|]. split; [done|].
  split; [apply supported_file_decide; eauto|].
  split; [apply supported_file_decide; eauto|].
  split; [|apply extension_csv_endswith].
  unfold load. rewrite Ht, Htrain, Hvalidation. res_step.
  by destruct (endswith train ".csv").
Qed.

Lemma validated_files_loader_witness :
  load (λ format _, Raise (ValueError format))
       (Sample.args None (Some "runs/train.csv") (Some "dev.json"))
  = Raise (ValueError "csv") ∧
  load (λ format _, Raise (ValueError format))
       (Sample.args None (Some "csv") (Some "dev.csv"))
  = Raise (ValueError "json").
Proof.
  split.
  - destruct (validated_files_loader
                (λ format _, Raise (ValueError format))
                (Sample.args None (Some "runs/train.csv") (Some "dev.json"))
                (Sample.args None (Some "runs/train.csv") (Some "dev.json"))
                eq_refl eq_refl)
      as (train & validation & [= <-] & [= <-] & _ & _ & Hload & _).
    exact Hload.
  - destruct (validated_files_loader
                (λ format _, Raise (ValueError format))
                (Sample.args None (Some "csv") (Some "dev.csv"))
                (Sample.args None (Some "csv") (Some "dev.csv"))
                eq_refl eq_refl)
      as (train & validation & [= <-] & [= <-] & _ & _ & Hload & _).
    exact Hload.
Defined.

(** ** Model construction *)

Lemma prefix_spec p s :
  String.prefix p s = true ↔ ∃ post, s = p +:+ post.
Proof.
  revert s. induction p as [|a p IH]; intros s.
  - split; [intros _; by exists s|by destruct s].
  - destruct s as [|b s]; simpl.
    + split; [done|]. by intros [post [=]].
    + destruct (Ascii.ascii_dec a b) as [->|Hne].
      * rewrite IH. split; intros [post Hpost]; exists post.
        -- by rewrite append_cons, Hpost.
        -- rewrite append_cons in Hpost. by injection Hpost.
      * split; [done|]. intros [post Hpost].
        rewrite append_cons in Hpost. by injection Hpost as -> _.
Qed.

Lemma contains_spec needle s :
  contains needle s = true ↔ ∃ pre post, s = pre +:+ needle +:+ post.
Proof.
  induction s as [|c s IH].
  - cbn [contains]. rewrite orb_false_r, prefix_spec. split.
    + intros [post ->]. by exists EmptyString, post.
    + intros ([|c pre] & post & Heq); [by exists post|].
      by rewrite append_cons in Heq.
  - cbn [contains]. rewrite orb_true_iff, prefix_spec, IH. split.
    + intros [[post ->]|(pre & post & ->)].
      * by exists EmptyString, post.
      * by exists (String c pre), post.
    + intros ([|c' pre] & post & Heq).
      * left. by exists post.
      * right. rewrite append_cons in Heq. injection Heq as -> ->.
        by exists pre, post.
Qed.

(** X3: the model is loaded as a TensorFlow checkpoint exactly when
    [.ckpt] occurs somewhere in the model name or path, in any position;
    the path, the configuration and the cache directory are passed on as
    they are. *)
Theorem model_init_from_tf (Model : Type)
    (from_pretrained :
       string → bool → PretrainedConfig → option string → result Model)
    (model_args : ModelArguments) (model_config : PretrainedConfig) :
  ((∃ pre post, model_name_or_path model_args = pre +:+ ".ckpt" +:+ post) →
   _model_init Model from_pretrained model_args model_config
   = from_pretrained (model_name_or_path model_args) true model_config
                     (cache_dir model_args)) ∧
  ((¬ ∃ pre post, model_name_or_path model_args = pre +:+ ".ckpt" +:+ post) →
   _model_init Model from_pretrained model_args model_config
   = from_pretrained (model_name_or_path model_args) false model_config
                     (cache_dir model_args)).
Proof.
  unfold _model_init. split; intros Hpath.
  - by rewrite (proj2 (contains_spec _ _) Hpath).
  - destruct (contains _ _) eqn:Hc; [|done].
    by apply contains_spec in Hc.
Qed.

Lemma model_init_from_tf_witness :
  _model_init bool (λ _ from_tf _ _, Ok from_tf)
    {| model_name_or_path := "runs/model.ckpt-1000"; cache_dir := None |}
    Sample.mrpc_config
  = Ok true.
Proof.
  apply (model_init_from_tf bool (λ _ from_tf _ _, Ok from_tf)
           {| model_name_or_path := "runs/model.ckpt-1000";
              cache_dir := None |} Sample.mrpc_config).
  by exists "runs/model", "-1000".
Defined.

(** ** Whole runs of [create_datasets] *)

Lemma derive_labels_shape task datasets is_regression label_list num_labels :
  derive_labels task datasets = Ok (is_regression, label_list, num_labels) →
  if (is_regression : bool) then label_list = None ∧ num_labels = 1%nat
  else ∃ ll, label_list = Some ll ∧ num_labels = len ll.
Proof.
  unfold derive_labels, getitem. destruct task as [t|].
  - destruct (bool_decide (t = "stsb")); cbn [negb].
    + by intros [= <- <- <-].
    + destruct (datasets !! "train") as [train|]; res_step; [|done].
      destruct (features train !! "label") as [feature|]; res_step; [|done].
      destruct (Feature_names feature) as [names|]; res_step; [|done].
      intros [= <- <- <-]. eauto.
  - destruct (datasets !! "train") as [train|]; res_step; [|done].
    destruct (features train !! "label") as [feature|]; res_step; [|done].
    destruct (bool_decide (Feature_dtype feature ∈ ["float32"; "float64"])).
    + by intros [= <- <- <-].
    + destruct (Dataset_unique train "label") as [col|]; res_step; [|done].
      intros [= <- <- <-]. eauto.
Qed.

Lemma logging_nil self : logging [] self = self.
Proof. destruct self. unfold logging. simpl. by rewrite app_nil_r. Qed.

Lemma logging_cons r records self :
  logging (r :: records) self = logging records (Self.log r self).2.
Proof. destruct self. unfold logging. simpl. by rewrite <-app_assoc. Qed.

Lemma required_splits_lookup {V} (mapped : gmap string V) task :
  (∀ split, split ∈ required_splits task → is_Some (mapped !! split)) ↔
  is_Some (mapped !! "train") ∧
  is_Some (mapped !! (if bool_decide (task = Some "mnli")
                      then "validation_matched" else "validation")) ∧
  (task ≠ None →
   is_Some (mapped !! (if bool_decide (task = Some "mnli")
                       then "test_matched" else "test"))).
Proof.
  unfold required_splits. destruct task as [t|].
  - destruct (decide (t = "mnli")) as [->|Ht].
    + rewrite !bool_decide_eq_true_2 by done. split.
      * intros Hall. repeat split; intros; apply Hall;
          rewrite !elem_of_cons; auto.
      * intros (H1 & H2 & H3) split.
        rewrite !elem_of_cons, elem_of_nil.
        intros [->|[->|[->|[]]]]; auto.
    + rewrite bool_decide_eq_false_2 by done.
      rewrite !(bool_decide_eq_false_2 (Some t = Some "mnli")) by congruence.
      split.
      * intros Hall. repeat split; intros; apply Hall;
          rewrite !elem_of_cons; auto.
      * intros (H1 & H2 & H3) split.
        rewrite !elem_of_cons, elem_of_nil.
        intros [->|[->|[->|[]]]]; auto.
  - rewrite !bool_decide_eq_false_2 by done. split.
    + intros Hall. repeat split; intros; try done; apply Hall;
        rewrite !elem_of_cons; auto.
    + intros (H1 & H2 & _) split.
      rewrite !elem_of_cons, elem_of_nil. intros [->|[->|[]]]; auto.
Qed.

Section map_and_sample_facts.
Context (Mapped : Type)
        (DatasetDict_map :
           (Batch → result BatchEncoding) → bool → bool → DatasetDict →
           result (gmap string Mapped))
        (Mapped_len : Mapped → nat)
        (Mapped_row : Mapped → nat → result unit)
        (random_sample : nat → nat → result (list nat)).

Local Abbreviation xp_map_and_sample :=
  (map_and_sample Mapped DatasetDict_map Mapped_len Mapped_row
                  random_sample).
Local Abbreviation log_rows train :=
  (λ index : nat,
     _ ← Self.eval (Mapped_row train index); Self.log (Info_sample index)).

Lemma log_rows_Ok train i self :
  Mapped_row train i = Ok () →
  log_rows train i self = (Ok (), (Self.log (Info_sample i) self).2).
Proof. intros Hrow. unfold mbind, method_bind, Self.eval. by rewrite Hrow. Qed.

Lemma for_each_sample train sample self :
  (∀ i, i ∈ sample → Mapped_row train i = Ok ()) →
  Self.for_each sample (log_rows train) self
  = (Ok (), logging (Info_sample <$> sample) self).
Proof.
  revert self. induction sample as [|i sample IH]; intros self Hrows.
  - by rewrite logging_nil.
  - cbn [Self.for_each].
    erewrite bind_Ok by (apply log_rows_Ok, Hrows; by left).
    rewrite IH by (intros; apply Hrows; by right).
    by rewrite fmap_cons, logging_cons.
Qed.

Lemma for_each_sample_inv train sample self self' :
  Self.for_each sample (log_rows train) self = (Ok (), self') →
  (∀ i, i ∈ sample → Mapped_row train i = Ok ()) ∧
  self' = logging (Info_sample <$> sample) self.
Proof.
  revert self. induction sample as [|i sample IH]; intros self.
  - intros [= <-]. split; [by intros ? ?%elem_of_nil|].
    by rewrite logging_nil.
  - cbn [Self.for_each].
    destruct (Mapped_row train i) as [[]|e] eqn:Hrow.
    + erewrite bind_Ok by reflexivity.
      intros [Hrows ->]%IH. split.
      * intros j [->|Hj]%elem_of_cons; auto.
      * by rewrite fmap_cons, logging_cons.
    + by erewrite bind_Raise by reflexivity.
Qed.

(** X4: after mapping, [create_datasets] reads the splits ["train"] and
    ["validation"], and with a task name also ["test"] (for [mnli] the
    [_matched] splits in place of the last two): it raises [KeyError], with
    the object as it was, when one of them is missing, and it returns
    exactly when the mapping, these splits, the drawing of the sample and
    the sampled rows are all there, having logged the sampled indices in
    the order drawn and nothing else. *)
Theorem map_and_sample_splits (args : GlueDataTrainingArguments)
    (datasets : DatasetDict) (preprocess : Batch → result BatchEncoding)
    (self : GlueXP) :
  (∀ mapped split,
      DatasetDict_map preprocess true (negb (overwrite_cache args)) datasets
      = Ok mapped →
      split ∈ required_splits (task_name args) →
      mapped !! split = None →
      xp_map_and_sample args datasets preprocess self = (Raise KeyError, self)) ∧
  (∀ self',
      xp_map_and_sample args datasets preprocess self = (Ok (), self') ↔
      ∃ mapped train sample,
        DatasetDict_map preprocess true (negb (overwrite_cache args)) datasets
        = Ok mapped ∧
        (∀ split, split ∈ required_splits (task_name args) →
                  is_Some (mapped !! split)) ∧
        mapped !! "train" = Some train ∧
        random_sample (Mapped_len train) 3 = Ok sample ∧
        (∀ i, i ∈ sample → Mapped_row train i = Ok ()) ∧
        self' = logging (Info_sample <$> sample) self).
Proof.
  unfold map_and_sample, getitem, Self.eval.
  destruct (DatasetDict_map preprocess true (negb (overwrite_cache args))
              datasets) as [mapped|e] eqn:Hmap.
  2:{ split; [done|]. intros self'.
      erewrite bind_Raise by reflexivity. split; [done|].
      by intros (? & ? & ? & [=] & _). }
  erewrite bind_Ok by reflexivity.
  destruct (mapped !! "train") as [train|] eqn:Htrain.
  2:{ erewrite bind_Raise by reflexivity. split; [done|].
      intros self'. split; [done|].
      intros (mapped' & ? & ? & [= <-] & _ & Htrain' & _). congruence. }
  erewrite bind_Ok by reflexivity.
  destruct (mapped !! (if bool_decide (task_name args = Some "mnli")
                       then "validation_matched" else "validation"))
    as [validation|] eqn:Hvalidation.
  2:{ erewrite bind_Raise by reflexivity. split; [done|].
      intros self'. split; [done|].
      intros (mapped' & ? & ? & [= <-] & Hall & _).
      apply required_splits_lookup in Hall as (_ & [? Hv] & _). congruence. }
  erewrite bind_Ok by reflexivity.
  destruct (decide (task_name args = None)) as [Htask|Htask].
  - rewrite (bool_decide_eq_false_2 (task_name args ≠ None)) by tauto.
    erewrite bind_Ok by reflexivity.
    assert (∀ split, split ∈ required_splits (task_name args) →
                     is_Some (mapped !! split)) as Hall.
    { apply required_splits_lookup. rewrite Htrain, Hvalidation.
      split; [by eexists|]. split; [by eexists|]. done. }
    split.
    { intros mapped' split [= <-] Hsplit Hnone.
      apply Hall in Hsplit as [? ?]. congruence. }
    intros self'.
    destruct (random_sample (Mapped_len train) 3) as [sample|e] eqn:Hsample.
    + erewrite bind_Ok by reflexivity. split.
      * intros [Hrows ->]%for_each_sample_inv.
        by exists mapped, train, sample.
      * intros (mapped' & train' & sample' & [= <-] & _ & Htrain' & Hsample'
                & Hrows & ->).
        rewrite Htrain in Htrain'. injection Htrain' as <-.
        rewrite Hsample in Hsample'. injection Hsample' as <-.
        by apply for_each_sample.
    + erewrite bind_Raise by reflexivity. split; [done|].
      intros (mapped' & train' & sample' & [= <-] & _ & Htrain' & Hsample'
              & _).
      rewrite Htrain in Htrain'. injection Htrain' as <-. congruence.
  - rewrite (bool_decide_eq_true_2 (task_name args ≠ None)) by done.
    destruct (mapped !! (if bool_decide (task_name args = Some "mnli")
                         then "test_matched" else "test"))
      as [test|] eqn:Htest.
    2:{ erewrite bind_Raise by reflexivity.
        split; [done|]. intros self'. split; [done|].
        intros (mapped' & ? & ? & [= <-] & Hall & _).
        apply required_splits_lookup in Hall as (_ & _ & Ht).
        destruct (Ht Htask). congruence. }
    erewrite bind_Ok by reflexivity.
    assert (∀ split, split ∈ required_splits (task_name args) →
                     is_Some (mapped !! split)) as Hall.
    { apply required_splits_lookup. rewrite Htrain, Hvalidation, Htest.
      split; [by eexists|]. split; [by eexists|]. by eexists. }
    split.
    { intros mapped' split [= <-] Hsplit Hnone.
      apply Hall in Hsplit as [? ?]. congruence. }
    intros self'.
    destruct (random_sample (Mapped_len train) 3) as [sample|e] eqn:Hsample.
    + erewrite bind_Ok by reflexivity. split.
      * intros [Hrows ->]%for_each_sample_inv.
        by exists mapped, train, sample.
      * intros (mapped' & train' & sample' & [= <-] & _ & Htrain' & Hsample'
                & Hrows & ->).
        rewrite Htrain in Htrain'. injection Htrain' as <-.
        rewrite Hsample in Hsample'. injection Hsample' as <-.
        by apply for_each_sample.
    + erewrite bind_Raise by reflexivity. split; [done|].
      intros (mapped' & train' & sample' & [= <-] & _ & Htrain' & Hsample'
              & _).
      rewrite Htrain in Htrain'. injection Htrain' as <-. congruence.
Qed.

Lemma for_each_logs train sample self :
  ∃ drawn,
    (Self.for_each sample (log_rows train) self).2
    = logging (Info_sample <$> drawn) self.
Proof.
  revert self. induction sample as [|i sample IH]; intros self.
  - exists []. by rewrite logging_nil.
  - cbn [Self.for_each].
    destruct (Mapped_row train i) as [[]|e] eqn:Hrow.
    + erewrite bind_Ok by reflexivity.
      match goal with
      | |- context [Self.for_each _ _ ?s] => destruct (IH s) as [drawn ->]
      end.
      exists (i :: drawn). by rewrite fmap_cons, logging_cons.
    + erewrite bind_Raise by reflexivity.
      exists []. by rewrite logging_nil.
Qed.

(** Whatever its outcome, the last part of [create_datasets] only adds
    sampled indices to the log. *)
Lemma map_and_sample_logs args datasets preprocess self :
  ∃ drawn,
    (xp_map_and_sample args datasets preprocess self).2
    = logging (Info_sample <$> drawn) self.
Proof.
  assert (∃ drawn, self = logging (Info_sample <$> drawn) self) as Hstopped.
  { exists []. by rewrite logging_nil. }
  unfold map_and_sample, getitem, Self.eval.
  destruct (DatasetDict_map preprocess true (negb (overwrite_cache args))
              datasets) as [mapped|e].
  2:{ by erewrite bind_Raise by reflexivity. }
  erewrite bind_Ok by reflexivity.
  destruct (mapped !! "train") as [train|].
  2:{ by erewrite bind_Raise by reflexivity. }
  erewrite bind_Ok by reflexivity.
  destruct (mapped !! (if bool_decide (task_name args = Some "mnli")
                       then "validation_matched" else "validation"))
    as [validation|].
  2:{ by erewrite bind_Raise by reflexivity. }
  erewrite bind_Ok by reflexivity.
  destruct (bool_decide (task_name args ≠ None)).
  - destruct (mapped !! (if bool_decide (task_name args = Some "mnli")
                         then "test_matched" else "test")) as [test|].
    2:{ by erewrite bind_Raise by reflexivity. }
    erewrite bind_Ok by reflexivity.
    destruct (random_sample (Mapped_len train) 3) as [sample|e].
    2:{ by erewrite bind_Raise by reflexivity. }
    erewrite bind_Ok by reflexivity. apply for_each_logs.
  - erewrite bind_Ok by reflexivity.
    destruct (random_sample (Mapped_len train) 3) as [sample|e].
    2:{ by erewrite bind_Raise by reflexivity. }
    erewrite bind_Ok by reflexivity. apply for_each_logs.
Qed.
End map_and_sample_facts.

Section create_datasets_runs.
Context (load_dataset : string → load_args → result DatasetDict)
        (create_config : GlueXP → result PretrainedConfig)
        (default_label2id : nat → list (string * Z))
        (tokenizer :
           list column → padding_t → option Z → bool → result BatchEncoding)
        (Mapped : Type)
        (DatasetDict_map :
           (Batch → result BatchEncoding) → bool → bool → DatasetDict →
           result (gmap string Mapped))
        (Mapped_len : Mapped → nat)
        (Mapped_row : Mapped → nat → result unit)
        (random_sample : nat → nat → result (list nat)).

Local Abbreviation xp_create_datasets :=
  (create_datasets load_dataset create_config default_label2id tokenizer
                   Mapped DatasetDict_map Mapped_len Mapped_row
                   random_sample).
Local Abbreviation xp_resolve_label_to_id :=
  (resolve_label_to_id create_config default_label2id).

Lemma resolve_label_to_id_classification task label_list n self :
  self_is_regression self = Some false →
  xp_resolve_label_to_id task (Some label_list) n self
  = (_ ← create_config self;
     Ok (match task with
         | None => Some (dense_table label_list)
         | Some _ => None
         end),
     self).
Proof.
  intros Hregression. unfold resolve_label_to_id.
  destruct (create_config self) as [config|e] eqn:Hconfig.
  2:{ erewrite bind_Raise by (by rewrite Hconfig). done. }
  erewrite bind_Ok by (by rewrite Hconfig).
  erewrite bind_Ok by reflexivity.
  destruct (dict_ne _ _), task as [t|]; cbn [andb].
  - rewrite (bool_decide_eq_true_2 (Some t ≠ None)) by done.
    erewrite bind_Ok by (unfold Self.getattr; by rewrite Hregression).
    by rewrite (bool_decide_eq_false_2 (Some t = None)).
  - rewrite (bool_decide_eq_false_2 (None ≠ None)) by (by intros []).
    erewrite bind_Ok by reflexivity.
    by rewrite (bool_decide_eq_true_2 (None = None)).
  - erewrite bind_Ok by reflexivity.
    by rewrite (bool_decide_eq_false_2 (Some t = None)).
  - erewrite bind_Ok by reflexivity.
    by rewrite (bool_decide_eq_true_2 (None = None)).
Qed.

(** X5: a run of [create_datasets] that returns is a classification run:
    [is_regression] is false, the label list is assigned and [num_labels]
    is its length, the sentence keys are those of the task or of the
    columns, and [label_to_id] is [None] under a task name and the dense
    index of the label list without one, whatever the model configuration
    says; the remap branch has not run, no warning has been logged, and
    the log has grown by the sampled indices only. *)
Theorem create_datasets_completed (self self' : GlueXP) :
  xp_create_datasets self = (Ok (), self') →
  ∃ datasets label_list keys sample,
    load load_dataset (data_args self) = Ok datasets ∧
    derive_labels (task_name (data_args self)) datasets
    = Ok (false, Some label_list, len label_list) ∧
    sentence_keys (task_name (data_args self)) datasets = Ok keys ∧
    self' = completed self datasets label_list keys
              (match task_name (data_args self) with
               | None => Some (dense_table label_list)
               | Some _ => None
               end)
              sample.
Proof.
  destruct self as [args ds ir ll nl k1 k2 tbl lg].
  unfold create_datasets. cbn [data_args]. run_step.
  destruct (load load_dataset args) as [datasets|e] eqn:Hload.
  2:{ by erewrite bind_Raise by reflexivity. }
  do 2 run_step.
  destruct (derive_labels (task_name args) datasets)
    as [[[is_regression label_list] num_labels]|e] eqn:Hderive.
  2:{ by erewrite bind_Raise by reflexivity. }
  run_step. cbn beta iota. run_step.
  pose proof (derive_labels_shape _ _ _ _ _ Hderive) as Hshape.
  destruct label_list as [label_list|].
  2:{ by erewrite bind_Raise by reflexivity. }
  destruct is_regression; [by destruct Hshape|].
  destruct Hshape as (? & [= <-] & ->).
  do 3 run_step.
  destruct (sentence_keys (task_name args) datasets) as [[key1 key2]|e]
    eqn:Hkeys.
  2:{ by erewrite bind_Raise by reflexivity. }
  run_step. cbn beta iota. run_step.
  destruct (padding_strategy args) as [padding max_length].
  match goal with
  | |- (_ ≫= _) ?s = _ → _ =>
      destruct (create_config s) as [config|e] eqn:Hconfig
  end.
  2:{ erewrite bind_Raise; [done|].
      rewrite resolve_label_to_id_classification by done.
      by rewrite Hconfig. }
  erewrite bind_Ok.
  2:{ rewrite resolve_label_to_id_classification by done.
      by rewrite Hconfig. }
  run_step.
  intros Hmap.
  match type of Hmap with
  | map_and_sample _ _ _ _ _ ?a ?d ?f ?s = _ =>
      destruct (map_and_sample_logs Mapped DatasetDict_map Mapped_len
                  Mapped_row random_sample a d f s) as [drawn Hdrawn]
  end.
  rewrite Hmap in Hdrawn. cbn [snd] in Hdrawn. subst self'.
  by exists datasets, label_list, (key1, key2), drawn.
Qed.

(** X6: no run of [create_datasets], whether it returns or raises,
    logs the warning of the remap branch or leaves a remap table: the log
    only grows by sampled indices, the arguments are untouched, and a table
    found in [label_to_id] afterwards is the one that was there before, or,
    in a run without a task name, the dense index of the label list. *)
Theorem create_datasets_never_remaps (self : GlueXP) :
  ∃ drawn,
    logged (xp_create_datasets self).2
    = logged self ++ (Info_sample <$> drawn) ∧
    data_args (xp_create_datasets self).2 = data_args self ∧
    ∀ table,
      self_label_to_id (xp_create_datasets self).2 = Some (Some table) →
      self_label_to_id self = Some (Some table) ∨
      ∃ label_list,
        task_name (data_args self) = None ∧
        self_label_list (xp_create_datasets self).2 = Some label_list ∧
        table = dense_table label_list.
Proof.
  destruct self as [args ds ir ll nl k1 k2 tbl lg].
  assert (∀ self' : GlueXP,
            logged self' = lg → data_args self' = args →
            self_label_to_id self' = tbl →
            ∃ drawn,
              logged self' = lg ++ (Info_sample <$> drawn) ∧
              data_args self' = args ∧
              ∀ table,
                self_label_to_id self' = Some (Some table) →
                tbl = Some (Some table) ∨
                ∃ label_list,
                  task_name args = None ∧
                  self_label_list self' = Some label_list ∧
                  table = dense_table label_list) as Hstopped.
  { intros self' Hlog Hargs Htable. exists [].
    rewrite Hlog, Hargs, Htable, app_nil_r. auto. }
  unfold create_datasets. cbn [data_args logged self_label_to_id]. run_step.
  destruct (load load_dataset args) as [datasets|e] eqn:Hload.
  2:{ erewrite bind_Raise by reflexivity. by apply Hstopped. }
  do 2 run_step.
  destruct (derive_labels (task_name args) datasets)
    as [[[is_regression label_list] num_labels]|e] eqn:Hderive.
  2:{ erewrite bind_Raise by reflexivity. by apply Hstopped. }
  run_step. cbn beta iota. run_step.
  pose proof (derive_labels_shape _ _ _ _ _ Hderive) as Hshape.
  destruct label_list as [label_list|].
  2:{ erewrite bind_Raise by reflexivity. by apply Hstopped. }
  destruct is_regression; [by destruct Hshape|].
  destruct Hshape as (? & [= <-] & ->).
  do 3 run_step.
  destruct (sentence_keys (task_name args) datasets) as [[key1 key2]|e]
    eqn:Hkeys.
  2:{ erewrite bind_Raise by reflexivity. by apply Hstopped. }
  run_step. cbn beta iota. run_step.
  destruct (padding_strategy args) as [padding max_length].
  match goal with
  | |- context [(_ ≫= _) ?s] =>
      destruct (create_config s) as [config|e] eqn:Hconfig
  end.
  2:{ erewrite bind_Raise.
      2:{ rewrite resolve_label_to_id_classification by done.
          by rewrite Hconfig. }
      by apply Hstopped. }
  erewrite bind_Ok.
  2:{ rewrite resolve_label_to_id_classification by done.
      by rewrite Hconfig. }
  run_step.
  match goal with
  | |- context [map_and_sample _ _ _ _ _ ?a ?d ?f ?s] =>
      destruct (map_and_sample_logs Mapped DatasetDict_map Mapped_len
                  Mapped_row random_sample a d f s) as [drawn ->]
  end.
  exists drawn. cbn. split; [done|]. split; [done|].
  intros table. destruct (task_name args); [done|].
  intros [= <-]. right. by exists label_list.
Qed.
End create_datasets_runs.

Lemma map_and_sample_splits_witness :
  map_and_sample nat Sample.DatasetDict_map Sample.Mapped_len
    Sample.Mapped_row Sample.random_sample
    (Sample.args (Some "rte") None None) Sample.reviews (λ _, Ok ∅)
    (new_xp (Sample.args (Some "rte") None None))
  = (Raise KeyError, new_xp (Sample.args (Some "rte") None None)).
Proof.
  apply (proj1 (map_and_sample_splits
                  nat Sample.DatasetDict_map Sample.Mapped_len
                  Sample.Mapped_row Sample.random_sample
                  (Sample.args (Some "rte") None None) Sample.reviews
                  (λ _, Ok ∅)
                  (new_xp (Sample.args (Some "rte") None None)))
               (list_to_map [("train", 3%nat); ("validation", 3%nat)])
               "test").
  - vm_compute. reflexivity.
  - vm_compute. do 2 right. left.
  - vm_compute. reflexivity.
Defined.

Lemma create_datasets_completed_witness :
  self_label_to_id
    (Sample.run Sample.mrpc Sample.mrpc_config
       (new_xp (Sample.args (Some "mrpc") None None))).2
  = Some None.
Proof.
  destruct (create_datasets_completed
              (λ _ _, Ok Sample.mrpc) (λ _, Ok Sample.mrpc_config)
              Sample.default_label2id Sample.tokenizer nat
              Sample.DatasetDict_map Sample.Mapped_len Sample.Mapped_row
              Sample.random_sample
              (new_xp (Sample.args (Some "mrpc") None None))
              (Sample.run Sample.mrpc Sample.mrpc_config
                 (new_xp (Sample.args (Some "mrpc") None None))).2)
    as (datasets & label_list & keys & sample & _ & _ & _ & Hself).
  - vm_compute. reflexivity.
  - rewrite Hself. reflexivity.
Defined.

(** ** Sentence keys of a file run *)

(** X7: with no task name the sentence keys come from the columns of the
    training split other than ["label"]: ["sentence1"] and ["sentence2"]
    when both are among them; otherwise the first two of them in column
    order, or the only one with no second key; with no such column the
    lookup raises [IndexError].  A key that is found is a column of the
    training split and is never ["label"]. *)
Theorem sentence_keys_of_columns (datasets : DatasetDict) (train : Dataset) :
  datasets !! "train" = Some train →
  let columns := filter (λ name, name ≠ "label") (column_names train) in
  ("sentence1" ∈ columns ∧ "sentence2" ∈ columns →
   sentence_keys None datasets = Ok ("sentence1", Some "sentence2")) ∧
  (¬ ("sentence1" ∈ columns ∧ "sentence2" ∈ columns) →
   match columns with
   | [] => sentence_keys None datasets = Raise IndexError
   | [k1] => sentence_keys None datasets = Ok (k1, None)
   | k1 :: k2 :: _ => sentence_keys None datasets = Ok (k1, Some k2)
   end) ∧
  (∀ k1 k2,
      sentence_keys None datasets = Ok (k1, k2) →
      k1 ∈ column_names train ∧ k1 ≠ "label" ∧
      ∀ k, k2 = Some k → k ∈ column_names train ∧ k ≠ "label").
Proof.
  intros Htrain columns.
  assert (∀ k, k ∈ columns → k ∈ column_names train ∧ k ≠ "label") as Hcolumn.
  { intros k [? ?]%list_elem_of_filter. done. }
  unfold sentence_keys, getitem. rewrite Htrain. res_step. fold columns.
  destruct (decide ("sentence1" ∈ columns ∧ "sentence2" ∈ columns))
    as [[H1 H2]|Hnot].
  - rewrite !bool_decide_eq_true_2 by done. cbn [andb].
    split; [done|]. split; [by intros []|].
    intros k1 k2 [= <- <-]. split; [by apply Hcolumn|].
    split; [by apply Hcolumn|]. intros k [= <-]. by apply Hcolumn.
  - assert (bool_decide ("sentence1" ∈ columns)
            && bool_decide ("sentence2" ∈ columns) = false) as ->.
    { apply andb_false_iff. rewrite !bool_decide_eq_false.
      destruct (decide ("sentence1" ∈ columns)); tauto. }
    split; [done|].
    destruct columns as [|c1 [|c2 rest]]; simpl.
    + split; [done|]. by intros ? ? [=].
    + split; [done|]. intros k1 k2 [= <- <-].
      split; [apply Hcolumn; by left|].
      split; [apply Hcolumn; by left|]. by intros ? [=].
    + split; [done|]. intros k1 k2 [= <- <-].
      split; [apply Hcolumn; by left|].
      split; [apply Hcolumn; by left|].
      intros k [= <-]. apply Hcolumn. right. by left.
Qed.

Lemma sentence_keys_of_columns_witness :
  sentence_keys None Sample.reviews = Ok ("text", None).
Proof.
  pose proof (proj1 (proj2 (sentence_keys_of_columns
                              Sample.reviews Sample.reviews_split eq_refl)))
    as Hkeys.
  apply Hkeys. intros [H1 _].
  apply list_elem_of_filter in H1 as [_ H1]. vm_compute in H1.
  repeat (apply elem_of_cons in H1 as [H1|H1]; [discriminate H1|]).
  by apply elem_of_nil in H1.
Defined.

(** ** More on the preprocessing function *)

Section preprocess_function_facts.
Context (tokenizer :
           list column → padding_t → option Z → bool → result BatchEncoding).
Implicit Types (sentence1_key : string) (sentence2_key : option string)
               (padding : padding_t) (max_length : option Z)
               (label_to_id : option (gmap pyval Z)) (examples : Batch).

Local Abbreviation xp_preprocess_function := (preprocess_function tokenizer).

(** The tuple of columns handed to the tokenizer. *)
Local Abbreviation tokenizer_args examples sentence1_key sentence2_key a args :=
  (examples !! sentence1_key = Some a ∧
   match sentence2_key with
   | None => args = [a]
   | Some key => ∃ b, examples !! key = Some b ∧ args = [a; b]
   end).

Lemma preprocess_function_tokenized sentence1_key sentence2_key padding
    max_length label_to_id examples a args :
  tokenizer_args examples sentence1_key sentence2_key a args →
  xp_preprocess_function sentence1_key sentence2_key padding
    max_length label_to_id examples
  = (encoding ← tokenizer args padding max_length true;
     match label_to_id, examples !! "label" with
     | Some table, Some labels =>
         ids ← Res.traverse (getitem table) (cells labels);
         Ok (<["label" := LabelIds ids]> encoding)
     | _, _ => Ok encoding
     end).
Proof.
  intros [Ha Hargs]. unfold preprocess_function, getitem. rewrite Ha.
  res_step. destruct sentence2_key as [key|].
  - by destruct Hargs as (b & -> & ->).
  - by subst args.
Qed.

Lemma preprocess_function_missing_key sentence1_key sentence2_key padding
    max_length label_to_id examples :
  (examples !! sentence1_key = None ∨
   ∃ key, sentence2_key = Some key ∧ examples !! key = None) →
  xp_preprocess_function sentence1_key sentence2_key padding
    max_length label_to_id examples = Raise KeyError.
Proof.
  unfold preprocess_function, getitem.
  intros [Hnone|(key & -> & Hnone)].
  - rewrite Hnone. by destruct sentence2_key.
  - rewrite Hnone. by destruct (examples !! sentence1_key).
Qed.

(** X8: the preprocessing function raises [KeyError] when the batch lacks
    the first sentence column, or the second one when there is a second
    key, whatever the tokenizer would do; and an exception of the tokenizer
    comes out as it is, before any label is looked up. *)
Theorem preprocess_function_raises
    (sentence1_key : string) (sentence2_key : option string)
    (padding : padding_t) (max_length : option Z)
    (label_to_id : option (gmap pyval Z)) (examples : Batch) :
  (examples !! sentence1_key = None →
   xp_preprocess_function sentence1_key sentence2_key padding
    max_length label_to_id examples = Raise KeyError) ∧
  (∀ key, sentence2_key = Some key → examples !! key = None →
          xp_preprocess_function sentence1_key sentence2_key padding
    max_length label_to_id examples = Raise KeyError) ∧
  (∀ a args e,
      tokenizer_args examples sentence1_key sentence2_key a args →
      tokenizer args padding max_length true = Raise e →
      xp_preprocess_function sentence1_key sentence2_key padding
    max_length label_to_id examples = Raise e).
Proof.
  split; [|split].
  - intros Hnone. apply preprocess_function_missing_key. by left.
  - intros key Hkey Hnone. apply preprocess_function_missing_key.
    right. by exists key.
  - intros a args e Hargs Htok.
    rewrite (preprocess_function_tokenized _ _ _ _ _ _ a args Hargs). by rewrite Htok.
Qed.

(** X9: when the preprocessing function returns, the batch had the
    sentence columns, the tokenizer returned an encoding for them, and the
    result is that encoding in every entry other than ["label"]; its
    ["label"] entry is the list of the ids of the batch's labels, one per
    label and each found in the table, when there is a table and the batch
    has labels, and the result is the encoding itself otherwise. *)
Theorem preprocess_function_returns
    (sentence1_key : string) (sentence2_key : option string)
    (padding : padding_t) (max_length : option Z)
    (label_to_id : option (gmap pyval Z)) (examples : Batch)
    (out : BatchEncoding) :
  xp_preprocess_function sentence1_key sentence2_key padding
    max_length label_to_id examples = Ok out →
  ∃ a args encoding,
    tokenizer_args examples sentence1_key sentence2_key a args ∧
    tokenizer args padding max_length true = Ok encoding ∧
    (∀ k, k ≠ "label" → out !! k = encoding !! k) ∧
    match label_to_id, examples !! "label" with
    | Some table, Some labels =>
        ∃ ids,
          out !! "label" = Some (LabelIds ids) ∧
          Forall2 (λ l id, table !! l = Some id) (cells labels) ids
    | _, _ => out = encoding
    end.
Proof.
  intros Hout.
  destruct (examples !! sentence1_key) as [a|] eqn:Ha.
  2:{ rewrite preprocess_function_missing_key in Hout by by left. done. }
  assert (∃ args, tokenizer_args examples sentence1_key sentence2_key a args) as [args Hargs].
  { destruct sentence2_key as [key|] eqn:Hkey; [|by exists [a]].
    destruct (examples !! key) as [b|] eqn:Hb; [exists [a; b]; eauto|].
    rewrite preprocess_function_missing_key in Hout; [done|].
    right. by exists key. }
  rewrite (preprocess_function_tokenized _ _ _ _ _ _ a args Hargs) in Hout.
  destruct (tokenizer args padding max_length true) as [encoding|] eqn:Htok;
    [|done].
  revert Hout. res_step. intros Hout.
  exists a, args, encoding. split; [split; [done|apply Hargs]|].
  split; [done|].
  destruct label_to_id as [table|]; [|by injection Hout as <-].
  destruct (examples !! "label") as [labels|]; [|by injection Hout as <-].
  destruct (Res.traverse (getitem table) (cells labels)) as [ids|] eqn:Hids;
    [|done].
  injection Hout as <-. split.
  - intros k Hk. by rewrite lookup_insert_ne.
  - exists ids. split; [by rewrite lookup_insert|].
    apply traverse_Ok in Hids. eapply Forall2_impl; [exact Hids|].
    intros l id. unfold getitem. by destruct (table !! l); intros [= <-].
Qed.

(** X10: the table of a file run turns the labels of a batch into their
    positions in the sorted list of the distinct training labels, each
    below the number of labels, as long as every label of the batch occurs
    in the training column; a batch with a label that the training column
    does not have makes the preprocessing function raise [KeyError]. *)
Theorem preprocess_function_dense_labels
    (sentence1_key : string) (sentence2_key : option string)
    (padding : padding_t) (max_length : option Z)
    (col : column) (examples : Batch) (a : column) (args : list column)
    (encoding : BatchEncoding) (labels : column) :
  let label_list := sorted (unique_column col) in
  tokenizer_args examples sentence1_key sentence2_key a args →
  tokenizer args padding max_length true = Ok encoding →
  examples !! "label" = Some labels →
  ((∀ v, v ∈ cells labels → v ∈ cells col) →
   ∃ ids,
     xp_preprocess_function sentence1_key sentence2_key padding max_length
       (Some (dense_table label_list)) examples
     = Ok (<["label" := LabelIds ids]> encoding) ∧
     Forall2 (λ v id, ∃ i : nat, id = Z.of_nat i ∧ (i < len label_list)%nat ∧
                                 cells label_list !! i = Some v)
             (cells labels) ids) ∧
  (∀ v, v ∈ cells labels → v ∉ cells col →
        xp_preprocess_function sentence1_key sentence2_key padding max_length
       (Some (dense_table label_list)) examples
        = Raise KeyError).
Proof.
  intros label_list Hargs Htok Hlabels.
  destruct (sorted_unique_spec col) as (_ & Hnodup & Helem & _).
  fold label_list in Hnodup, Helem.
  pose proof (dense_table_spec label_list Hnodup) as Htable.
  rewrite (preprocess_function_tokenized _ _ _ _ _ _ a args Hargs), Htok, Hlabels.
  res_step. split.
  - intros Hseen.
    set (id_of := λ v, default 0 (dense_table label_list !! v)).
    assert (Forall2 (λ v id, dense_table label_list !! v = Some id)
                    (cells labels) (id_of <$> cells labels)) as Hids.
    { apply Forall2_fmap_r, Forall_Forall2_diag, Forall_forall.
      intros v Hv%Hseen%Helem. apply list_elem_of_lookup in Hv as [i Hi].
      unfold id_of, compose. cbn beta.
      rewrite (proj2 (Htable v (Z.of_nat i))); [done|].
      by exists i. }
    exists (id_of <$> cells labels). split.
    + assert (Res.traverse (getitem (dense_table label_list)) (cells labels)
              = Ok (id_of <$> cells labels)) as ->; [|done].
      apply traverse_Ok. eapply Forall2_impl; [exact Hids|].
      intros v id Hv. unfold getitem. by rewrite Hv.
    + eapply Forall2_impl; [exact Hids|].
      intros v id (i & -> & Hi)%Htable. exists i. split; [done|].
      split; [|done]. by apply lookup_lt_Some in Hi.
  - intros v Hv Hunseen.
    rewrite (traverse_getitem_Raise _ _ v); [done..|].
    destruct (dense_table label_list !! v) as [id|] eqn:Hid; [|done].
    apply Htable in Hid as (i & _ & Hi). destruct Hunseen.
    apply Helem. by apply list_elem_of_lookup_2 with i.
Qed.
End preprocess_function_facts.

Lemma preprocess_function_raises_witness :
  preprocess_function Sample.tokenizer "sentence1" (Some "sentence2")
    Pad_False None None (list_to_map (data Sample.reviews_split))
  = Raise KeyError.
Proof.
  apply (proj1 (preprocess_function_raises
                  Sample.tokenizer "sentence1" (Some "sentence2")
                  Pad_False None None
                  (list_to_map (data Sample.reviews_split)))).
  reflexivity.
Defined.

Lemma preprocess_function_returns_witness :
  ∃ a args encoding,
    (list_to_map (data Sample.reviews_split) : Batch) !! "text" = Some a ∧
    args = [a] ∧
    Sample.tokenizer args Pad_False None true = Ok encoding.
Proof.
  assert (preprocess_function Sample.tokenizer "text" None Pad_False None None
            (list_to_map (data Sample.reviews_split))
          = Ok {["input_ids" :=
                   TokenRows [[103; 111; 111; 100]; [98; 97; 100];
                              [102; 105; 110; 101]]]}) as Hrun.
  { vm_compute. reflexivity. }
  destruct (preprocess_function_returns
              Sample.tokenizer "text" None Pad_False None None
              (list_to_map (data Sample.reviews_split))
              {["input_ids" := TokenRows [[103; 111; 111; 100]; [98; 97; 100];
                                          [102; 105; 110; 101]]]}
              Hrun)
    as (a & args & encoding & [Ha Hargs] & Htok & _).
  by exists a, args, encoding.
Defined.

Lemma preprocess_function_dense_labels_witness :
  preprocess_function Sample.tokenizer "text" None Pad_False None
    (Some (dense_table (sorted (unique_column (StrColumn ["pos"; "neg"])))))
    (list_to_map [("text", StrColumn ["so-so"]);
                  ("label", StrColumn ["neutral"])])
  = Raise KeyError.
Proof.
  set (examples := list_to_map [("text", StrColumn ["so-so"]);
                                ("label", StrColumn ["neutral"])] : Batch).
  assert (examples !! "text" = Some (StrColumn ["so-so"])) as Htext
    by reflexivity.
  assert (examples !! "label" = Some (StrColumn ["neutral"])) as Hlabel
    by reflexivity.
  apply (proj2 (preprocess_function_dense_labels
                  Sample.tokenizer "text" None Pad_False None
                  (StrColumn ["pos"; "neg"]) examples
                  (StrColumn ["so-so"]) [StrColumn ["so-so"]]
                  {["input_ids" := TokenRows [[115; 111; 45; 115; 111]]]}
                  (StrColumn ["neutral"])
                  (conj Htext eq_refl) eq_refl Hlabel)
               (PyStr "neutral")).
  - by left.
  - intros Hin. vm_compute in Hin.
    repeat (apply elem_of_cons in Hin as [Hin|Hin]; [discriminate Hin|]).
    by apply elem_of_nil in Hin.
Defined.

(** ** The order of the dense index *)

Lemma py_le_trans u v w : py_le u v → py_le v w → py_le u w.
Proof.
  destruct u as [p|s], v as [q|t], w as [r|x]; simpl; try done.
  - apply Qcle_trans.
  - apply (transitivity (R:=String.le)).
Qed.

Lemma py_le_antisym v w : py_le v w → py_le w v → v = w.
Proof.
  destruct v as [p|s], w as [q|t]; simpl; try done.
  - intros H1 H2. f_equal. by apply Qcle_antisym.
  - intros H1 H2. f_equal. by apply (anti_symm String.le).
Qed.

Lemma Sorted_py_le_lookup l i j v w :
  Sorted py_le l → (i < j)%nat → l !! i = Some v → l !! j = Some w →
  py_le v w.
Proof.
  intros Hsorted Hij Hi Hj.
  assert (Transitive py_le) as Htrans by exact py_le_trans.
  apply Sorted_StronglySorted in Hsorted; [|done].
  rewrite <-(take_drop j l) in Hsorted.
  apply (StronglySorted_app_1_elem_of _ _ _ v w) in Hsorted; [done| |].
  - apply list_elem_of_lookup. exists i. by rewrite lookup_take_lt.
  - apply list_elem_of_lookup. exists 0%nat.
    by rewrite lookup_drop, Nat.add_0_r.
Qed.

(** X11: the ids a file run gives its labels follow the order of the
    labels: of two labels of the table, the one that is smaller (as numbers,
    or as strings) has the smaller id, and two labels have the same id only
    when they are the same label. *)
Theorem dense_table_monotone (col : column) (v w : pyval) (i j : Z) :
  let table := dense_table (sorted (unique_column col)) in
  table !! v = Some i → table !! w = Some j →
  (i < j ↔ py_lt v w) ∧ (i = j ↔ v = w).
Proof.
  intros table Hv Hw.
  destruct (sorted_unique_spec col) as (Hsorted & Hnodup & _ & _).
  pose proof (dense_table_spec _ Hnodup) as Htable.
  apply Htable in Hv as (a & -> & Ha). apply Htable in Hw as (b & -> & Hb).
  assert (a = b ↔ v = w) as Heq.
  { split; [intros ->; congruence|].
    intros ->. by apply (NoDup_lookup _ _ _ w Hnodup). }
  assert ((a < b)%nat → py_lt v w) as Hlt.
  { intros Hab. split.
    - by apply (Sorted_py_le_lookup _ a b) with (1:=Hsorted).
    - intros Hvw%Heq. lia. }
  split; [|by rewrite Nat2Z.inj_iff].
  split; [intros ?; apply Hlt; lia|].
  intros [Hle Hne].
  destruct (Nat.lt_trichotomy a b) as [?|[Hab%Heq|Hba]]; [lia|done|].
  destruct Hne. apply py_le_antisym; [done|].
  by apply (Sorted_py_le_lookup _ b a) with (1:=Hsorted).
Qed.

Lemma dense_table_monotone_witness :
  py_lt (PyStr "neg") (PyStr "pos").
Proof.
  apply (dense_table_monotone (StrColumn ["pos"; "neg"; "pos"])
           (PyStr "neg") (PyStr "pos") 0 1); [reflexivity..|lia].
Defined.

(** ** More on the metrics *)












Section compute_metrics_more.
Context (metric_compute :
           string → ndarray → list Qc → result (gmap string pyfloat)).

Local Abbreviation xp_compute_metrics := (compute_metrics metric_compute).


(** X13: [compute_metrics] raises [IndexError] on an empty tuple of
    predictions, reads only the first item of a tuple, raises
    [AttributeError] when [is_regression] has not been assigned (no run of
    [create_datasets] came first), and in a classification run raises
    [ValueError] when a row of predictions is empty. *)
Theorem compute_metrics_malformed (self : GlueXP) (labels : list Qc) :
  xp_compute_metrics self {| predictions := Tuple []; label_ids := labels |}
  = Raise IndexError ∧
  (∀ m others,
      xp_compute_metrics self
        {| predictions := Tuple (m :: others); label_ids := labels |}
      = xp_compute_metrics self
          {| predictions := Array m; label_ids := labels |}) ∧
  (∀ m, self_is_regression self = None →
        xp_compute_metrics self
          {| predictions := Array m; label_ids := labels |}
        = Raise (AttributeError "is_regression")) ∧
  (∀ m, self_is_regression self = Some false → [] ∈ rows m →
        xp_compute_metrics self
          {| predictions := Array m; label_ids := labels |}
        = Raise (ValueError "attempt to get argmax of an empty sequence")).
Proof.
  split; [done|]. split; [done|]. split.
  - intros m Hnone. unfold compute_metrics. cbn [predictions].
    by rewrite Hnone.
  - intros m Hfalse Hrow. unfold compute_metrics. cbn [predictions].
    rewrite Hfalse. res_step. unfold np.argmax.
    rewrite (traverse_Raise np.argmax_row (rows m) []
               (ValueError "attempt to get argmax of an empty sequence"));
      [done..| |done].
    intros [|x row] _; [by left|right; by eexists].
Qed.

End compute_metrics_more.


Lemma compute_metrics_malformed_witness :
  compute_metrics (λ _ _ _, Ok ∅)
    (new_xp (Sample.args (Some "mrpc") None None))
    {| predictions := Array {| ncols := 2; rows := [[0; 1]]%Qc |};
       label_ids := [1]%Qc |}
  = Raise (AttributeError "is_regression").
Proof.
  apply (proj1 (proj2 (proj2 (compute_metrics_malformed
                                (λ _ _ _, Ok ∅)
                                (new_xp (Sample.args (Some "mrpc") None None))
                                [1]%Qc)))).
  reflexivity.
Defined.


(** ** Validated task names *)

(** X15: a task name that [__post_init__] has accepted is one that
    [create_datasets] can use: the dataset is loaded from the hub under
    that name, and the lookup of the task's sentence keys succeeds with
    keys other than ["label"]; the [KeyError] of an unknown task cannot
    arise after validation. *)
Theorem validated_task_resolves
    (load_dataset : string → load_args → result DatasetDict)
    (args args' : GlueDataTrainingArguments) (t : string)
    (datasets : DatasetDict) :
  post_init args = Ok args' →
  task_name args' = Some t →
  load load_dataset args' = load_dataset "glue" (Config_name t) ∧
  ∃ k1 k2,
    sentence_keys (Some t) datasets = Ok (k1, k2) ∧
    k1 ≠ "label" ∧ k2 ≠ Some "label".
Proof.
  intros Hok Ht. split; [unfold load; by rewrite Ht|].
  pose proof (post_init_task _ _ _ Hok Ht) as Hin.
  unfold glue_tasks in Hin.
  repeat (apply elem_of_cons in Hin as [->|Hin];
          [by eexists _, _; split; [reflexivity|]|]).
  by apply elem_of_nil in Hin.
Qed.

Lemma validated_task_resolves_witness :
  sentence_keys (Some "qnli") Sample.mrpc = Ok ("question", Some "sentence").
Proof.
  destruct (validated_task_resolves
              (λ _ _, Ok Sample.mrpc)
              (Sample.args (Some "QNLI") None None)
              (Sample.args (Some "qnli") None None) "qnli" Sample.mrpc
              eq_refl eq_refl)
    as (_ & k1 & k2 & Hkeys & _).
  rewrite Hkeys. revert Hkeys. by intros [= <- <-].
Defined.

(** ** Outcomes of the label derivation *)

(** X16: whatever the branch, the derived locals fit together: in a
    regression run [label_list] is left unassigned and [num_labels] is 1,
    and otherwise [label_list] is assigned and [num_labels] is its length.
    Outside the task [stsb] the derivation reads the training split and
    its ["label"] feature and raises [KeyError] when either is missing;
    under a task name it raises [AttributeError] when that feature is not
    a class label. *)
Theorem derive_labels_outcomes (task : option string) (datasets : DatasetDict) :
  (∀ is_regression label_list num_labels,
      derive_labels task datasets = Ok (is_regression, label_list, num_labels) →
      if (is_regression : bool) then label_list = None ∧ num_labels = 1%nat
      else ∃ ll, label_list = Some ll ∧ num_labels = len ll) ∧
  (task ≠ Some "stsb" → datasets !! "train" = None →
   derive_labels task datasets = Raise KeyError) ∧
  (∀ train,
      task ≠ Some "stsb" → datasets !! "train" = Some train →
      features train !! "label" = None →
      derive_labels task datasets = Raise KeyError) ∧
  (∀ t train dtype,
      task = Some t → t ≠ "stsb" → datasets !! "train" = Some train →
      features train !! "label" = Some (Value dtype) →
      derive_labels task datasets = Raise (AttributeError "names")).
Proof.
  split; [apply derive_labels_shape|].
  unfold derive_labels, getitem. split; [|split].
  - intros Htask Htrain. rewrite Htrain. destruct task as [t|]; [|done].
    rewrite bool_decide_eq_false_2 by congruence. done.
  - intros train Htask Htrain Hlabel. rewrite Htrain. res_step.
    rewrite Hlabel. destruct task as [t|]; [|done].
    rewrite bool_decide_eq_false_2 by congruence. done.
  - intros t train dtype -> Ht Htrain Hlabel.
    rewrite bool_decide_eq_false_2 by done. cbn [negb].
    rewrite Htrain. res_step. by rewrite Hlabel.
Qed.

Lemma derive_labels_outcomes_witness :
  derive_labels (Some "rte") Sample.reviews = Raise (AttributeError "names").
Proof.
  apply (proj2 (proj2 (proj2 (derive_labels_outcomes
                                (Some "rte") Sample.reviews)))
           "rte" Sample.reviews_split "string");
    [reflexivity|discriminate|reflexivity..].
Defined.
